(** * GAIA agent glue code: questions, attachments, agent runs, submission

    A shallow embedding of the Python sources

      - [gaia_agent/api.py]    (HTTP client of the scoring service),
      - [gaia_agent/agent.py]  (the [GAIAAgent] wrapper around the ReAct loop),
      - [gaia_agent/tools.py]  (the two file reading tools),
      - [main.py]              (download, batch loop, entry point),

    followed by the properties of the pipeline that the specification
    states.  Python values are an inductive type, exceptions are values of
    an error monad over an explicit world (the stream bound to
    [sys.stdout], the stream objects, the files on disk and the trace of
    calls to the outside), and every external collaborator (the HTTP
    library's answers, the LLM loop, pandas, the YAML parser) is a field
    of the class [Externals], over which all theorems quantify. *)

From Stdlib Require Import ZArith String Ascii List Lia Bool Floats.
From stdpp Require Import base option list strings gmap pretty.

Local Open Scope string_scope.

Set Warnings "-register-all".
Set Default Proof Using "Type".

(** ** Python values *)

Module Py.

(** The values that flow through the glue code: what [response.json()]
    and [yaml.safe_load] build, byte strings, the tuple that
    [fetch_questions] returns on one path, and the coroutine object that
    calling an [async def] function builds.  A dict is kept as its items
    in insertion order; the dicts of this program have string keys. *)
Inductive pyval : Type :=
| PNone
| PBool (b : bool)
| PInt (z : Z)
| PFloat (f : float)
| PStr (s : string)
| PBytes (s : string)
| PList (l : list pyval)
| PTuple (l : list pyval)
| PDict (d : list (string * pyval))
| PCoroutine (fn : string).

(** Induction on a value, with the hypothesis for every element of a
    list or tuple and every value of a dict. *)
Section pyval_induction.
Variable P : pyval → Prop.
Hypothesis HNone : P PNone.
Hypothesis HBool : ∀ b, P (PBool b).
Hypothesis HInt : ∀ z, P (PInt z).
Hypothesis HFloat : ∀ f, P (PFloat f).
Hypothesis HStr : ∀ s, P (PStr s).
Hypothesis HBytes : ∀ s, P (PBytes s).
Hypothesis HList : ∀ l, Forall P l → P (PList l).
Hypothesis HTuple : ∀ l, Forall P l → P (PTuple l).
Hypothesis HDict : ∀ d, Forall (λ kv, P (snd kv)) d → P (PDict d).
Hypothesis HCoroutine : ∀ fn, P (PCoroutine fn).

Fixpoint pyval_nested_ind (v : pyval) : P v :=
  match v with
  | PNone => HNone
  | PBool b => HBool b
  | PInt z => HInt z
  | PFloat f => HFloat f
  | PStr s => HStr s
  | PBytes s => HBytes s
  | PList l =>
      HList l
        ((fix elems (l : list pyval) : Forall P l :=
            match l with
            | [] => @List.Forall_nil _ P
            | x :: l' => @List.Forall_cons _ P x l' (pyval_nested_ind x) (elems l')
            end) l)
  | PTuple l =>
      HTuple l
        ((fix elems (l : list pyval) : Forall P l :=
            match l with
            | [] => @List.Forall_nil _ P
            | x :: l' => @List.Forall_cons _ P x l' (pyval_nested_ind x) (elems l')
            end) l)
  | PDict d =>
      HDict d
        ((fix items (d : list (string * pyval))
            : Forall (λ kv, P (snd kv)) d :=
            match d with
            | [] => @List.Forall_nil _ (λ kv, P (snd kv))
            | kv :: d' =>
                @List.Forall_cons _ (λ kv, P (snd kv)) kv d' (pyval_nested_ind (snd kv)) (items d')
            end) d)
  | PCoroutine fn => HCoroutine fn
  end.
End pyval_induction.

(** Exception classes.  The first five are [requests.exceptions.*];
    in that library [ConnectionError], [Timeout], [HTTPError] and
    [JSONDecodeError] (through [InvalidJSONError]) all derive from
    [RequestException]. *)
Inductive exn_class : Type :=
| RequestException
| ConnectionError
| Timeout
| HTTPError
| JSONDecodeError
| ValueError
| TypeError
| KeyError
| AttributeError
| NameError
| FileNotFoundError
| UnicodeDecodeError
| OtherException (name : string)
| OtherBaseException (name : string).

Record exn : Type := Exn { exn_cls : exn_class; exn_str : string }.

(** [isinstance(e, requests.exceptions.RequestException)] *)
Definition is_RequestException (e : exn) : bool :=
  match exn_cls e with
  | RequestException | ConnectionError | Timeout | HTTPError
  | JSONDecodeError => true
  | _ => false
  end.

(** [isinstance(e, requests.exceptions.JSONDecodeError)] *)
Definition is_JSONDecodeError (e : exn) : bool :=
  match exn_cls e with JSONDecodeError => true | _ => false end.

(** [isinstance(e, Exception)]: everything but the classes that derive
    from [BaseException] only ([KeyboardInterrupt], [SystemExit],
    [asyncio.CancelledError]). *)
Definition is_Exception (e : exn) : bool :=
  match exn_cls e with OtherBaseException _ => false | _ => true end.

(** [type(e).__name__] *)
Definition class_name (c : exn_class) : string :=
  match c with
  | RequestException => "RequestException"
  | ConnectionError => "ConnectionError"
  | Timeout => "Timeout"
  | HTTPError => "HTTPError"
  | JSONDecodeError => "JSONDecodeError"
  | ValueError => "ValueError"
  | TypeError => "TypeError"
  | KeyError => "KeyError"
  | AttributeError => "AttributeError"
  | NameError => "NameError"
  | FileNotFoundError => "FileNotFoundError"
  | UnicodeDecodeError => "UnicodeDecodeError"
  | OtherException name => name
  | OtherBaseException name => name
  end.

Definition nl : string := String (ascii_of_nat 10) EmptyString.

(** [type(v).__name__] *)
Definition type_name (v : pyval) : string :=
  match v with
  | PNone => "NoneType"
  | PBool _ => "bool"
  | PInt _ => "int"
  | PFloat _ => "float"
  | PStr _ => "str"
  | PBytes _ => "bytes"
  | PList _ => "list"
  | PTuple _ => "tuple"
  | PDict _ => "dict"
  | PCoroutine _ => "coroutine"
  end.

(** [bool(v)], as [not v] and [if v] use it. *)
Definition py_truthy (v : pyval) : bool :=
  match v with
  | PNone => false
  | PBool b => b
  | PInt z => negb (z =? 0)%Z
  | PFloat f => negb (PrimFloat.eqb f 0%float)
  | PStr s => negb (String.eqb s EmptyString)
  | PBytes s => negb (String.eqb s EmptyString)
  | PList l => match l with [] => false | _ => true end
  | PTuple l => match l with [] => false | _ => true end
  | PDict d => match d with [] => false | _ => true end
  | PCoroutine _ => true
  end.

(** [d[key]] on the items of a dict. *)
Fixpoint dict_lookup (key : string) (d : list (string * pyval)) : option pyval :=
  match d with
  | [] => None
  | (k, v) :: d' => if String.eqb k key then Some v else dict_lookup key d'
  end.

(** Whether [hash(v)] succeeds: lists and dicts are unhashable, a tuple
    is hashable when its elements are. *)
Fixpoint py_hashable (v : pyval) : bool :=
  match v with
  | PList _ | PDict _ => false
  | PTuple l => forallb py_hashable l
  | _ => true
  end.

(** What [json.dumps(v, allow_nan=False)] inside [requests.post] does
    with a payload: [None] when it serialises, the exception otherwise.
    The [requests] library turns the [ValueError] of a NaN or infinite
    float into its own [InvalidJSONError], a [RequestException]; a
    [TypeError] passes through unchanged. *)
Fixpoint json_dumps_error (v : pyval) : option exn :=
  match v with
  | PNone | PBool _ | PInt _ | PStr _ => None
  | PFloat f =>
      if PrimFloat.is_nan f || PrimFloat.is_infinity f
      then Some (Exn RequestException
                   "Out of range float values are not JSON compliant")
      else None
  | PBytes _ | PCoroutine _ =>
      Some (Exn TypeError
              ("Object of type " +:+ type_name v +:+ " is not JSON serializable"))
  | PList l | PTuple l =>
      (fix items (l : list pyval) : option exn :=
         match l with
         | [] => None
         | x :: l' =>
             match json_dumps_error x with
             | Some e => Some e
             | None => items l'
             end
         end) l
  | PDict d =>
      (fix items (d : list (string * pyval)) : option exn :=
         match d with
         | [] => None
         | (_, x) :: d' =>
             match json_dumps_error x with
             | Some e => Some e
             | None => items d'
             end
         end) d
  end.

End Py.
Export Py.

(** ** The world, the outcome of a call and the effect monad *)

Module World.

(** Calls that leave the process: an HTTP GET, an HTTP POST that was
    really sent, and one invocation of the external ReAct loop. *)
Inductive event : Type :=
| EvGet (url : string)
| EvPost (url : string) (payload : pyval)
| EvAchat (prompt : string).

(** [sys_stdout] is the stream object currently bound to [sys.stdout],
    an index into [streams], the contents of the stream objects made so
    far.  [files_dir] tells whether the working directory [files/]
    exists, [fs] maps a path to the bytes of the file there. *)
Record world : Type := World {
  sys_stdout : nat;
  streams : list string;
  files_dir : bool;
  fs : gmap string string;
  trace : list event
}.

Definition set_sys_stdout (id : nat) (w : world) : world :=
  World id (streams w) (files_dir w) (fs w) (trace w).

Definition set_streams (ss : list string) (w : world) : world :=
  World (sys_stdout w) ss (files_dir w) (fs w) (trace w).

Definition set_fs (m : gmap string string) (w : world) : world :=
  World (sys_stdout w) (streams w) (files_dir w) m (trace w).

Definition log_event (ev : event) (w : world) : world :=
  World (sys_stdout w) (streams w) (files_dir w) (fs w) (trace w ++ [ev]).

(** A call returns a value or raises. *)
Inductive outcome (A : Type) : Type :=
| Ok (a : A)
| Raise (e : exn).
Arguments Ok {A} a.
Arguments Raise {A} e.

Definition M (A : Type) : Type := world → outcome A * world.

Definition ret {A} (a : A) : M A := λ w, (Ok a, w).

Definition bind {A B} (m : M A) (k : A → M B) : M B :=
  λ w, match m w with
       | (Ok a, w') => k a w'
       | (Raise e, w') => (Raise e, w')
       end.

Definition raise {A} (e : exn) : M A := λ w, (Raise e, w).

Definition lift {A} (o : outcome A) : M A := λ w, (o, w).

(** [try: body / except ...:] where [handler e] is the body of the first
    clause that matches [e], if there is one. *)
Definition try_except {A} (body : M A) (handler : exn → option (M A)) : M A :=
  λ w, match body w with
       | (Ok a, w') => (Ok a, w')
       | (Raise e, w') =>
           match handler e with
           | Some h => h w'
           | None => (Raise e, w')
           end
       end.

(** [try: body / finally: final] *)
Definition try_finally {A} (body : M A) (final : M unit) : M A :=
  λ w, match body w with
       | (r, w') =>
           match final w' with
           | (Ok _, w'') => (r, w'')
           | (Raise e, w'') => (Raise e, w'')
           end
       end.

Notation "x <~ m ;; k" := (bind m (λ x, k))
  (at level 100, m at next level, right associativity).
Notation "m ;;; k" := (bind m (λ _, k))
  (at level 100, right associativity).

(** [for x in xs: body x] *)
Fixpoint for_each {A} (xs : list A) (body : A → M unit) : M unit :=
  match xs with
  | [] => ret tt
  | x :: xs' => body x ;;; for_each xs' body
  end.

(** *** Streams *)

(** [stream.write(s)] *)
Definition write_stream (id : nat) (s : string) (w : world) : world :=
  set_streams (alter (λ c, c +:+ s) id (streams w)) w.

(** [print(s)]: writes [s] and a newline to whatever [sys.stdout] is
    bound to at that moment. *)
Definition print (s : string) : M unit :=
  λ w, (Ok tt, write_stream (sys_stdout w) (s +:+ nl) w).

(** [io.StringIO()] *)
Definition new_StringIO : M nat :=
  λ w, (Ok (length (streams w)), set_streams (streams w ++ [EmptyString]) w).

(** [stream.getvalue()] *)
Definition getvalue (id : nat) : M string :=
  λ w, (Ok (default EmptyString (streams w !! id)), w).

(** *** External collaborators *)

Record response : Type := Response {
  status_code : Z;
  reason : string;
  content : string;
  text : string;
  json : outcome pyval
}.

Inductive http_outcome : Type :=
| NetRaises (e : exn)
| NetResponse (r : response).

Inductive provider : Type := Gemini | OpenAI.

(** The arguments [GoogleGenAI(...)] or [OpenAI(...)] was built from. *)
Record llm : Type := Llm {
  llm_provider : provider;
  llm_model : pyval;
  llm_api_key : option string;
  llm_temperature : pyval
}.

(** The arguments of [ReActAgent(...)]. *)
Record react_agent : Type := ReActAgent {
  agent_tools : list string;
  agent_llm : llm;
  agent_verbose : bool;
  agent_memory : pyval
}.

(** One run of the external loop: the text it writes to [sys.stdout]
    while it runs, chunk by chunk, and how it ends ([.response] of the
    value it returns, or the exception it raises). *)
Record behaviour : Type := Behaviour {
  emitted : list string;
  returned : outcome string
}.

Record dataframe : Type := DataFrame {
  df_columns : list string;
  df_rows : list (list string)
}.

(** Everything the glue code calls and does not define.  The replies may
    depend on the whole world at the moment of the call. *)
Class Externals : Type := {
  (** [str(v)] for the values that are not a string, [None], a bool or
      an int *)
  py_repr : pyval → string;
  (** what [requests.get(url, timeout=t)] does *)
  requests_get_reply : world → string → option Z → http_outcome;
  (** what [requests.post(url, json=payload)] does once the payload is
      serialised *)
  requests_post_reply : world → string → pyval → http_outcome;
  (** [os.environ.get(name)] *)
  environ : string → option string;
  (** [yaml.safe_load] on the bytes of a file *)
  yaml_safe_load : string → outcome pyval;
  (** the exception, if any, that the LLM class raises on these arguments *)
  llm_init_error : llm → option exn;
  (** the exception, if any, that [ReActAgent(...)] raises *)
  react_init_error : react_agent → option exn;
  (** [await agent.achat(prompt)] *)
  react_achat : react_agent → world → string → behaviour;
  (** [pd.read_excel] on the bytes of a workbook *)
  pd_parse_excel : string → outcome dataframe;
  (** [df.to_markdown(index=False)] *)
  df_to_markdown : dataframe → outcome string;
  (** decoding the bytes of a file opened in text mode *)
  decode_text : string → outcome string
}.

Section builtins.
Context {E : Externals}.

(** [str(v)], which is also what an f-string and [str.format] insert. *)
Definition py_str (v : pyval) : string :=
  match v with
  | PStr s => s
  | PNone => "None"
  | PBool true => "True"
  | PBool false => "False"
  | PInt z => pretty z
  | _ => py_repr v
  end.

(** [len(v)] *)
Definition py_len (v : pyval) : M nat :=
  match v with
  | PStr s | PBytes s => ret (String.length s)
  | PList l | PTuple l => ret (length l)
  | PDict d => ret (length d)
  | _ => raise (Exn TypeError
                  ("object of type '" +:+ type_name v +:+ "' has no len()"))
  end.

(** The elements that [for x in v] visits. *)
Definition py_iter (v : pyval) : M (list pyval) :=
  match v with
  | PList l | PTuple l => ret l
  | PDict d => ret (map (λ kv, PStr (fst kv)) d)
  | PStr s =>
      ret (map (λ c, PStr (String c EmptyString)) (list_ascii_of_string s))
  | PBytes s =>
      ret (map (λ c, PInt (Z.of_nat (nat_of_ascii c))) (list_ascii_of_string s))
  | _ => raise (Exn TypeError
                  ("'" +:+ type_name v +:+ "' object is not iterable"))
  end.

(** [v[key]] for a string [key]. *)
Definition py_getitem (v : pyval) (key : string) : M pyval :=
  match v with
  | PDict d =>
      match dict_lookup key d with
      | Some x => ret x
      | None => raise (Exn KeyError ("'" +:+ key +:+ "'"))
      end
  | PStr _ =>
      raise (Exn TypeError "string indices must be integers, not 'str'")
  | PBytes _ =>
      raise (Exn TypeError "byte indices must be integers or slices, not str")
  | PList _ | PTuple _ =>
      raise (Exn TypeError
               (type_name v +:+ " indices must be integers or slices, not str"))
  | _ => raise (Exn TypeError
                  ("'" +:+ type_name v +:+ "' object is not subscriptable"))
  end.

(** [v.get(key, dflt)]; only a dict has the method. *)
Definition py_get (v : pyval) (key : string) (dflt : pyval) : M pyval :=
  match v with
  | PDict d => ret (default dflt (dict_lookup key d))
  | _ => raise (Exn AttributeError
                  ("'" +:+ type_name v +:+ "' object has no attribute 'get'"))
  end.

(** [v == s] for a string literal [s] *)
Definition py_eq_str (v : pyval) (s : string) : bool :=
  match v with PStr s' => String.eqb s' s | _ => false end.

End builtins.

End World.
Export World.

(** ** [gaia_agent/api.py] *)

Module Api.
Section api.
Context {E : Externals}.

Definition API_URL : string := "https://agents-course-unit4-scoring.hf.space".
Definition QUESTIONS_URL : string := API_URL +:+ "/questions".
Definition SUBMIT_URL : string := API_URL +:+ "/submit".
Definition FILES_URL : string := API_URL +:+ "/files".

(** [requests.get(url, timeout=timeout)] *)
Definition requests_get (url : string) (timeout : option Z) : M response :=
  λ w, match requests_get_reply w url timeout with
       | NetRaises e => (Raise e, log_event (EvGet url) w)
       | NetResponse r => (Ok r, log_event (EvGet url) w)
       end.

(** [requests.post(url, json=payload)]: the payload is serialised first,
    and nothing is sent when that fails. *)
Definition requests_post (url : string) (payload : pyval) : M response :=
  λ w, match json_dumps_error payload with
       | Some e => (Raise e, w)
       | None =>
           match requests_post_reply w url payload with
           | NetRaises e => (Raise e, log_event (EvPost url payload) w)
           | NetResponse r => (Ok r, log_event (EvPost url payload) w)
           end
       end.

(** [response.raise_for_status()]: an [HTTPError] for a 4xx or 5xx
    status, nothing otherwise. *)
Definition raise_for_status (url : string) (r : response) : M unit :=
  if (400 <=? status_code r)%Z && (status_code r <? 500)%Z then
    raise (Exn HTTPError (pretty (status_code r) +:+ " Client Error: "
                            +:+ reason r +:+ " for url: " +:+ url))
  else if (500 <=? status_code r)%Z && (status_code r <? 600)%Z then
    raise (Exn HTTPError (pretty (status_code r) +:+ " Server Error: "
                            +:+ reason r +:+ " for url: " +:+ url))
  else ret tt.

(** [response.json()] *)
Definition response_json (r : response) : M pyval := lift (json r).

(** [try: x = first; rest / except ...] where the clauses may mention
    the local variable [x], which is unbound when [first] raised. *)
Definition try_except_bound {A B} (first : M A) (rest : A → M B)
    (handler : option A → exn → option (M B)) : M B :=
  λ w, match first w with
       | (Ok a, w') => try_except (rest a) (handler (Some a)) w'
       | (Raise e, w') =>
           match handler None e with
           | Some h => h w'
           | None => (Raise e, w')
           end
       end.

(** The three [except] clauses of [fetch_questions], in source order. *)
Definition fetch_questions_except (response : option response) (e : exn)
  : option (M pyval) :=
  if is_RequestException e then
    Some (print ("Error fetching questions: " +:+ exn_str e) ;;;
          ret (PTuple [PStr ("Error fetching questions: " +:+ exn_str e); PNone]))
  else if is_JSONDecodeError e then
    Some (print ("Error decoding JSON response from questions endpoint: "
                   +:+ exn_str e) ;;;
          match response with
          | Some r =>
              print ("Response text: " +:+ substring 0 500 (text r)) ;;;
              ret PNone
          | None =>
              raise (Exn NameError
                       "cannot access local variable 'response' where it is not associated with a value")
          end)
  else if is_Exception e then
    Some (print ("An unexpected error occurred fetching questions: "
                   +:+ exn_str e) ;;;
          ret PNone)
  else None.

Definition fetch_questions (timeout : Z) : M pyval :=
  print "Fetching questions..." ;;;
  try_except_bound
    (requests_get QUESTIONS_URL (Some timeout))
    (λ response,
       raise_for_status QUESTIONS_URL response ;;;
       questions_data <~ response_json response ;;
       if negb (py_truthy questions_data) then
         print "Fetched questions list is empty." ;;;
         ret PNone
       else
         n <~ py_len questions_data ;;
         print ("Fetched " +:+ pretty n +:+ " questions.") ;;;
         ret questions_data)
    fetch_questions_except.

(** The three [except] clauses of [submit_answers]. *)
Definition submit_answers_except (response : option response) (e : exn)
  : option (M pyval) :=
  if is_RequestException e then
    Some (print ("Error submitting answers: " +:+ exn_str e) ;;;
          ret PNone)
  else if is_JSONDecodeError e then
    Some (print ("Error decoding JSON response from submit endpoint: "
                   +:+ exn_str e) ;;;
          match response with
          | Some r =>
              print ("Response text: " +:+ substring 0 500 (text r)) ;;;
              ret PNone
          | None =>
              raise (Exn NameError
                       "cannot access local variable 'response' where it is not associated with a value")
          end)
  else if is_Exception e then
    Some (print ("An unexpected error occurred submitting answers: "
                   +:+ exn_str e) ;;;
          ret PNone)
  else None.

Definition submit_answers (username agent_code answers : pyval) : M pyval :=
  let data := PDict [("username", username); ("agent_code", agent_code);
                     ("answers", answers)] in
  try_except_bound
    (requests_post SUBMIT_URL data)
    (λ response,
       raise_for_status SUBMIT_URL response ;;;
       response_json response)
    submit_answers_except.

Definition get_file (task_id : pyval) : M pyval :=
  try_except
    (response <~ requests_get (FILES_URL +:+ "/" +:+ py_str task_id) None ;;
     raise_for_status (FILES_URL +:+ "/" +:+ py_str task_id) response ;;;
     ret (PBytes (content response)))
    (λ e, if is_RequestException e then Some (ret PNone) else None).

End api.
End Api.
Export Api.

(** ** [gaia_agent/prompts.py] and [gaia_agent/agent.py] *)

Module Agent.
Section agent.
Context {E : Externals}.

Definition unlines (ls : list string) : string :=
  fold_right (λ l acc, l +:+ nl +:+ acc) EmptyString ls.

(** The template [general_instructions], cut at its only placeholder
    [{question}]. *)
Definition general_instructions : string * string :=
  ( unlines
      [ "You are a general AI assistant and you must answer ONE specific question.";
        "The question is:";
        EmptyString ]
    +:+ "```" +:+ nl,
    nl +:+ unlines
      [ "```";
        EmptyString;
        "## Final Answer Format";
        "YOUR FINAL ANSWER must be one of the following:";
        "- A single number, OR";
        "- As few words as possible, OR";
        "- A comma-separated list of numbers and/or strings.";
        EmptyString;
        "Depending on the answer, you must take care of the following:";
        "- If the answer is a number, avoid using separators or units unless specified otherwise.";
        "- If the answer is a string write the digits in plain text and avoid using articles or abbreviations unless specified otherwise.";
        "- If the answer is a comma-separated list, apply the above rules depending of whether the element to be put in the list is a number or a string." ] ).

(** [template.format(question=question)] *)
Definition format (template : string * string) (question : pyval) : string :=
  fst template +:+ py_str question +:+ snd template.

(** The names of the functions in [tools.tool_list]. *)
Definition tool_list : list string :=
  [ "web_search_and_scrape"; "string_reverse"; "read_excel_file";
    "read_python_script"; "parse_audio_file" ].

Record GAIAAgent : Type := { agent : react_agent }.

(** [GoogleGenAI(...)] and [OpenAI(...)] *)
Definition new_llm (l : llm) : M llm :=
  match llm_init_error l with
  | Some e => raise e
  | None => ret l
  end.

(** [ReActAgent(...)] *)
Definition new_ReActAgent (a : react_agent) : M react_agent :=
  match react_init_error a with
  | Some e => raise e
  | None => ret a
  end.

(** [GAIAAgent.__init__] *)
Definition GAIAAgent_init (config : pyval) : M GAIAAgent :=
  provider <~ py_get config "provider" (PStr EmptyString) ;;
  model <~ py_get config "model_name" (PStr EmptyString) ;;
  temperature <~ py_get config "temperature" PNone ;;
  llm <~ (if py_eq_str provider "gemini" then
            new_llm (Llm Gemini model (environ "GEMINI_API_KEY") temperature)
          else if py_eq_str provider "openai" then
            new_llm (Llm OpenAI model (environ "OPENAI_API_KEY") temperature)
          else
            raise (Exn ValueError ("Unsupported provider: " +:+ py_str provider))) ;;
  a <~ new_ReActAgent (ReActAgent tool_list llm true PNone) ;;
  ret {| agent := a |}.

(** [await self.agent.achat(prompt)]: the loop runs to its end, and what
    it prints goes to the stream bound to [sys.stdout] while it runs. *)
Definition achat (a : react_agent) (prompt : string) : M string :=
  λ w, let b := react_achat a w prompt in
       (returned b,
        fold_left (λ w' s, write_stream (sys_stdout w') s w') (emitted b)
          (log_event (EvAchat prompt) w)).

(** [GAIAAgent.run] *)
Definition run (self : GAIAAgent) (question : pyval)
    (return_reasoning_process : bool) : M (string * string) :=
  let prompt := format general_instructions question in
  if return_reasoning_process then
    old_stdout <~ (λ w, (Ok (sys_stdout w), w)) ;;
    new_stdout <~ new_StringIO ;;
    (λ w, (Ok tt, set_sys_stdout new_stdout w)) ;;;
    response <~ try_finally
                  (achat (agent self) prompt)
                  (λ w, (Ok tt, set_sys_stdout old_stdout w)) ;;
    captured_output <~ getvalue new_stdout ;;
    ret (response, captured_output)
  else
    response <~ achat (agent self) prompt ;;
    ret (response, EmptyString).

End agent.
End Agent.
Export Agent.

(** ** [gaia_agent/tools.py]: the two file reading tools *)

Module Tools.
Section tools.
Context {E : Externals}.

Definition no_such_file (path : string) : exn :=
  Exn FileNotFoundError
    ("[Errno 2] No such file or directory: '" +:+ path +:+ "'").

(** [pd.read_excel(path)] *)
Definition pd_read_excel (path : string) : M dataframe :=
  λ w, match fs w !! path with
       | None => (Raise (no_such_file path), w)
       | Some bytes => (pd_parse_excel bytes, w)
       end.

(** [with open(path, "r") as file: file.read()] *)
Definition read_text (path : string) : M string :=
  λ w, match fs w !! path with
       | None => (Raise (no_such_file path), w)
       | Some bytes => (decode_text bytes, w)
       end.

Definition read_excel_file (file_name : string) : M string :=
  let file_name := "menu_items.xlsx" in
  try_except
    (df <~ pd_read_excel ("files/" +:+ file_name) ;;
     lift (df_to_markdown df))
    (λ e, if is_Exception e then
            Some (ret ("Error: Failed to read the Excel file. Reason: "
                         +:+ exn_str e))
          else None).

Definition read_python_script (file_name : string) : M string :=
  let file_name := "python_code.py" in
  try_except
    (code <~ read_text ("files/" +:+ file_name) ;;
     ret code)
    (λ e, if is_Exception e then
            Some (ret ("Error: Failed to read the Python script. Reason: "
                         +:+ exn_str e))
          else None).

End tools.
End Tools.
Export Tools.

(** ** [main.py] *)

Module Main.
Section main.
Context {E : Externals}.

(** The dict [files] of [download_questions_and_files]: every
    [files.update({task_id: file})] so far, oldest first. *)
Definition files_dict : Type := list (pyval * pyval).

(** [files.update({task_id: file})]; building the one-entry dict hashes
    the key. *)
Definition files_update (files : files_dict) (task_id file : pyval)
  : M files_dict :=
  if py_hashable task_id then ret (files ++ [(task_id, file)])%list
  else raise (Exn TypeError ("unhashable type: '" +:+ type_name task_id +:+ "'")).

(** The value that the latest update stored under the string [key]. *)
Fixpoint files_lookup (key : string) (files : files_dict) : option pyval :=
  match files with
  | [] => None
  | (k, v) :: rest =>
      match files_lookup key rest with
      | Some x => Some x
      | None => if py_eq_str k key then Some v else None
      end
  end.

(** [files[key]] *)
Definition files_getitem (files : files_dict) (key : string) : M pyval :=
  match files_lookup key files with
  | Some v => ret v
  | None => raise (Exn KeyError ("'" +:+ key +:+ "'"))
  end.

(** The first loop of [download_questions_and_files]. *)
Fixpoint collect_files (qs : list pyval) (files : files_dict) : M files_dict :=
  match qs with
  | [] => ret files
  | question :: qs' =>
      task_id <~ py_getitem question "task_id" ;;
      file <~ get_file task_id ;;
      files' <~ files_update files task_id file ;;
      collect_files qs' files'
  end.

(** The hardcoded table from task id to file name, in source order. *)
Definition file_names : list (string * string) :=
  [ ("cca530fc-4052-43b2-b130-b30968d8aa44", "chess_position.jpg");
    ("99c9cc74-fdc8-46c6-8f8d-3ce2d3bfeea3", "Strawberry pie.mp3");
    ("f918266a-b3e0-4914-865d-4faa564f1aef", "python_code.py");
    ("1f975693-876d-457b-a649-393859e79bf3", "Homework.mp3");
    ("7bd855d8-463d-4ed5-93ca-5fe35145f733", "menu_items.xlsx") ].

(** [with open(path, "wb") as f: f.write(data)] for a path below
    [files/]: opening creates or truncates the file, writing wants
    bytes, and the file is closed either way. *)
Definition write_file_wb (path : string) (data : pyval) : M unit :=
  λ w, if files_dir w then
         match data with
         | PBytes b => (Ok tt, set_fs (<[path := b]> (fs w)) w)
         | _ =>
             (Raise (Exn TypeError
                       ("a bytes-like object is required, not '"
                          +:+ type_name data +:+ "'")),
              set_fs (<[path := EmptyString]> (fs w)) w)
         end
       else (Raise (no_such_file path), w).

(** The second loop of [download_questions_and_files]. *)
Definition store_files (files : files_dict) : M unit :=
  for_each file_names
    (λ entry,
       bytes_sequence <~ files_getitem files (fst entry) ;;
       write_file_wb ("files/" +:+ snd entry) bytes_sequence).

Definition download_questions_and_files : M pyval :=
  questions <~ fetch_questions 10 ;;
  qs <~ py_iter questions ;;
  files <~ collect_files qs [] ;;
  store_files files ;;;
  ret questions.

(** The loop of [answer_questions]; [answers] is the list built so far. *)
Fixpoint answer_loop (agent : GAIAAgent) (qs : list pyval)
    (answers : list pyval) : M (list pyval) :=
  match qs with
  | [] => ret answers
  | question_dict :: qs' =>
      query <~ py_getitem question_dict "question" ;;
      r <~ run agent query true ;;
      task_id <~ py_getitem question_dict "task_id" ;;
      answer_loop agent qs'
        (answers ++ [PDict [("task_id", task_id);
                            ("submitted_answer", PStr (fst r));
                            ("reasoning_trace", PStr (snd r))]])%list
  end.

(** The body of the coroutine [answer_questions(agent, questions)], run
    to its end.  ([tqdm] draws its bar on [sys.stderr], which is not
    part of the world.) *)
Definition answer_questions (agent : GAIAAgent) (questions : pyval) : M pyval :=
  qs <~ py_iter questions ;;
  answers <~ answer_loop agent qs [] ;;
  ret (PList answers).

(** [with open("config.yaml", "r") as f: yaml.safe_load(f)] *)
Definition load_config : M pyval :=
  λ w, match fs w !! "config.yaml" with
       | None => (Raise (no_such_file "config.yaml"), w)
       | Some bytes => (yaml_safe_load bytes, w)
       end.

(** The block under [if __name__ == "__main__"].  The call
    [answer_questions(agent, questions)] is neither awaited nor handed
    to an event loop: it builds the coroutine object and runs none of
    the body, so [answers] is that object. *)
Definition main : M unit :=
  questions <~ download_questions_and_files ;;
  config <~ load_config ;;
  agent <~ GAIAAgent_init config ;;
  let answers := PCoroutine "answer_questions" in
  username <~ py_getitem config "username" ;;
  agent_code <~ py_getitem config "agent_code" ;;
  status <~ submit_answers username agent_code answers ;;
  print (py_str status) ;;;
  print "Done!".

End main.
End Main.
Export Main.

(** ** [gaia_agent/tools.py]: the other three tools

    A [str] is a string of 8-bit characters here, as everywhere in
    this file: the code points below 256. *)

Module MoreTools.

(** What these tools call and do not define. *)
Class ToolExternals : Type := {
  (** [os.path.exists(path)] *)
  os_path_exists : world → string → bool;
  (** the body of the [try] of [parse_audio_file] on an existing path:
      decoding the MP3, exporting it as WAV, recording it and
      [recognizer.recognize_google] *)
  transcribe : world → string → outcome string;
  (** [list(ddgs.text(query, max_results=n))] under [with DDGS() as ddgs] *)
  ddgs_text : world → string → Z → outcome (list pyval);
  (** [BeautifulSoup(html, "html.parser")], the removal of the script
      and style elements, and [get_text(separator=" ", strip=True)] *)
  soup_text : string → outcome string
}.

(** [string[::-1]] *)
Definition string_reverse (s : string) : string :=
  string_of_list_ascii (rev (list_ascii_of_string s)).

(** The characters that [\s] matches in a [str] pattern: tab to
    carriage return, the four separators 28 to 31, the space, the next
    line control and the no-break space. *)
Definition is_space (c : ascii) : bool :=
  let n := nat_of_ascii c in
  (((9 <=? n) && (n <=? 13)) || ((28 <=? n) && (n <=? 32))
   || (n =? 133) || (n =? 160))%nat.

(** [re.sub(r"\s{2,}", " ", s)], from left to right: a maximal run of
    two or more whitespace characters becomes one space, a whitespace
    character on its own stays.  [in_run] tells that the characters
    just before were a run that has been replaced already. *)
Fixpoint collapse_spaces (in_run : bool) (s : string) : string :=
  match s with
  | EmptyString => EmptyString
  | String c s' =>
      if is_space c then
        if in_run then collapse_spaces true s'
        else match s' with
             | String c' _ =>
                 if is_space c'
                 then String " "%char (collapse_spaces true s')
                 else String c (collapse_spaces false s')
             | EmptyString => String c EmptyString
             end
      else String c (collapse_spaces false s')
  end.

(** Two whitespace characters next to each other. *)
Fixpoint adjacent_spaces (s : string) : bool :=
  match s with
  | String c (String c' _ as s') =>
      (is_space c && is_space c') || adjacent_spaces s'
  | _ => false
  end.

(** The first character is whitespace. *)
Definition starts_with_space (s : string) : bool :=
  match s with
  | String c _ => is_space c
  | EmptyString => false
  end.

(** [c.lower()] for a character below 256: the ASCII capitals and the
    Latin-1 capitals (all of 192 to 222 but the multiplication sign). *)
Definition lower_char (c : ascii) : ascii :=
  let n := nat_of_ascii c in
  if (((65 <=? n) && (n <=? 90))
      || ((192 <=? n) && (n <=? 222) && negb (n =? 215)))%nat
  then ascii_of_nat (n + 32) else c.

(** [s.lower()] *)
Fixpoint py_lower (s : string) : string :=
  match s with
  | EmptyString => EmptyString
  | String c s' => String (lower_char c) (py_lower s')
  end.

(** [needle in hay] *)
Fixpoint py_in (needle hay : string) : bool :=
  match hay with
  | EmptyString => String.prefix needle EmptyString
  | String _ hay' => String.prefix needle hay || py_in needle hay'
  end.

(** [isinstance(e, sr.RequestError)] *)
Definition is_sr_RequestError (e : exn) : bool :=
  match exn_cls e with
  | OtherException name => String.eqb name "RequestError"
  | _ => false
  end.

Section more_tools.
Context {E : Externals} {T : ToolExternals}.

(** The two [except] clauses of [web_search_and_scrape].
    [search_results] and [url] are the local variables at the moment
    of the exception; [url] is unbound until it is assigned. *)
Definition web_search_except (search_results : list pyval) (url : option pyval)
    (e : exn) : option (M string) :=
  if is_RequestException e then
    Some (match url with
          | Some u =>
              ret ("Error: Failed to fetch URL " +:+ py_str u +:+ ". Reason: "
                     +:+ exn_str e)
          | None =>
              raise (Exn NameError
                       "cannot access local variable 'url' where it is not associated with a value")
          end)
  else if is_Exception e then
    Some (ret ("Error: An unexpected error occurred during scraping."
                 +:+ match search_results, url with
                     | _ :: _, Some u => " URL: " +:+ py_str u
                     | _, _ => EmptyString
                     end
                 +:+ " Reason: " +:+ exn_str e))
  else None.

(** An exception at a point of the [try]: the clause that takes it
    runs, or it goes on to the caller. *)
Definition web_search_raised (search_results : list pyval) (url : option pyval)
    (e : exn) : M string :=
  match web_search_except search_results url e with
  | Some h => h
  | None => raise e
  end.

Definition web_search_and_scrape (query : string) (num_results : Z) : M string :=
  λ w,
    match ddgs_text w query num_results with
    | Raise e => web_search_raised [] None e w
    | Ok search_results =>
        match search_results with
        | [] => (Ok "Error: Web search did not return any results.", w)
        | top_result :: _ =>
            match py_get top_result "href" PNone w with
            | (Raise e, w1) => web_search_raised search_results None e w1
            | (Ok url, w1) =>
                if negb (py_truthy url) then
                  (Ok "Error: Search result did not contain a valid URL.", w1)
                else
                  try_except
                    (response <~ requests_get (py_str url) (Some 10%Z) ;;
                     raise_for_status (py_str url) response ;;;
                     raw_text <~ lift (soup_text (text response)) ;;
                     let cleaned_text := collapse_spaces false raw_text in
                     ret ("Scraped content from " +:+ py_str url +:+ ":" +:+ nl
                            +:+ nl +:+ cleaned_text))
                    (web_search_except search_results (Some url)) w1
            end
        end
    end.

(** The two [except] clauses of [parse_audio_file]. *)
Definition parse_audio_except (e : exn) : option (M string) :=
  if is_sr_RequestError e then
    Some (ret ("Error: Could not request results from Google Web Speech API; "
                 +:+ exn_str e))
  else if is_Exception e then
    Some (if py_in "ffmpeg" (py_lower (exn_str e))
             || py_in "avlib" (py_lower (exn_str e))
          then ret ("Error: Failed to process audio. Reason: " +:+ exn_str e
                      +:+ ". Ensure ffmpeg is installed and in your system's PATH.")
          else ret ("Error: Failed to parse the audio file. Reason: "
                      +:+ exn_str e))
  else None.

Definition parse_audio_file (file_name : string) : M string :=
  λ w,
    if negb (os_path_exists w ("files/" +:+ file_name)) then
      (Ok ("Error: File not found at " +:+ "files/" +:+ file_name), w)
    else
      try_except (λ w', (transcribe w' ("files/" +:+ file_name), w'))
        parse_audio_except w.

End more_tools.

(** A search that finds [results], a page parser that returns the
    markup as it is, a disk on which [existing] is the only path below
    [files/], and a transcription that ends as [heard]. *)
Definition tool_externals (results : outcome (list pyval)) (existing : string)
    (heard : outcome string) : ToolExternals :=
  {| os_path_exists := λ _ path, String.eqb path ("files/" +:+ existing);
     transcribe := λ _ _, heard;
     ddgs_text := λ _ _ _, results;
     soup_text := λ html, Ok html |}.

End MoreTools.
Export MoreTools.

(** ** Concrete environments

    Small closed instances of [Externals] and worlds, on which the
    embedding is evaluated. *)

Module Scenario.

(** An environment given by the replies to GET (by URL), the reply to
    POST, the run of the agent loop (by prompt) and the parsed
    configuration file. *)
Definition externals (get : string → http_outcome) (post : http_outcome)
    (chat : string → behaviour) (config : outcome pyval) : Externals :=
  {| py_repr := λ v, "<" +:+ type_name v +:+ ">";
     requests_get_reply := λ _ url _, get url;
     requests_post_reply := λ _ _ _, post;
     environ := λ _, Some "secret";
     yaml_safe_load := λ _, config;
     llm_init_error := λ _, None;
     react_init_error := λ _, None;
     react_achat := λ _ _ prompt, chat prompt;
     pd_parse_excel := λ bytes, Ok (DataFrame [bytes] []);
     df_to_markdown := λ df, Ok (String.concat "|" (df_columns df));
     decode_text := λ bytes, Ok bytes |}.

(** A process whose [sys.stdout] is stream 0, with the directory
    [files/] and a configuration file on disk. *)
Definition w0 : world :=
  World 0 [EmptyString] true {[ "config.yaml" := "provider: gemini" ]} [].

Definition ok_response (body : string) (parsed : outcome pyval) : response :=
  Response 200 "OK" body body parsed.

Definition not_json : outcome pyval :=
  Raise (Exn JSONDecodeError "Expecting value: line 1 column 1 (char 0)").

Definition not_found : http_outcome :=
  NetResponse (Response 404 "Not Found" "{}" "{}" (Ok (PDict []))).

Definition server_error : http_outcome :=
  NetResponse (Response 500 "Internal Server Error" "oops" "oops" not_json).

Definition refused : http_outcome :=
  NetRaises (Exn ConnectionError "Connection refused").

(** A loop that prints two lines and answers [Paris]. *)
Definition talkative (prompt : string) : behaviour :=
  Behaviour ["Thought: I need to answer the question." +:+ nl;
             "Action: Search" +:+ nl] (Ok "Paris").

(** A loop that prints one line and is cancelled. *)
Definition cancelled (prompt : string) : behaviour :=
  Behaviour ["Thought: still thinking" +:+ nl]
    (Raise (Exn (OtherBaseException "CancelledError") EmptyString)).

Definition gemini_config : pyval :=
  PDict [("provider", PStr "gemini"); ("model_name", PStr "gemini-pro");
         ("username", PStr "user"); ("agent_code", PStr "http://code.url")].

Definition a_question (task_id text : string) : pyval :=
  PDict [("task_id", PStr task_id); ("question", PStr text)].

(** No attachment anywhere, the submit endpoint is down. *)
Definition offline : Externals :=
  externals (λ _, refused) server_error talkative (Ok gemini_config).

(** Every file request is answered 404. *)
Definition no_files : Externals :=
  externals (λ _, not_found) server_error talkative (Ok gemini_config).

(** The questions endpoint answers 200 with a body that parses to
    [parsed]; every file request is answered 404. *)
Definition questions_body (parsed : outcome pyval) : Externals :=
  externals
    (λ url, if String.eqb url QUESTIONS_URL
            then NetResponse (ok_response "body" parsed)
            else not_found)
    server_error talkative (Ok gemini_config).

Definition three_questions : list pyval :=
  [a_question "T1" "Q1"; a_question "T2" "Q2"; a_question "T3" "Q3"].

Definition file_url (task_id : string) : string :=
  FILES_URL +:+ "/" +:+ task_id.

Definition file_response (bytes : string) : http_outcome :=
  NetResponse (Response 200 "OK" bytes bytes not_json).

(** Three questions T1, T2, T3 are fetched; only T2 has an attachment. *)
Definition one_attachment : Externals :=
  externals
    (λ url, if String.eqb url QUESTIONS_URL
            then NetResponse (ok_response "body" (Ok (PList three_questions)))
            else if String.eqb url (file_url "T2") then file_response "attachment"
            else not_found)
    server_error talkative (Ok gemini_config).

(** The five questions of the hardcoded table. *)
Definition mapped_questions : list pyval :=
  map (λ entry, a_question (fst entry) "Q") file_names.

Definition score_body : pyval :=
  PDict [("score", PInt 100); ("message", PStr "Success")].

(** The five questions of the table are fetched, every one of them has
    an attachment except those in [absent], and the submit endpoint
    answers with a score. *)
Definition mapped_attachments (absent : list string) : Externals :=
  externals
    (λ url, if String.eqb url QUESTIONS_URL
            then NetResponse (ok_response "body" (Ok (PList mapped_questions)))
            else if existsb (λ task_id, String.eqb url (file_url task_id)) absent
            then not_found
            else file_response ("bytes of " +:+ url))
    (NetResponse (ok_response "body" (Ok score_body)))
    talkative (Ok gemini_config).

(** The agent loop is cancelled in the middle of a run. *)
Definition interrupted : Externals :=
  externals (λ _, not_found) server_error cancelled (Ok gemini_config).

Definition gemini_agent : GAIAAgent :=
  {| agent := ReActAgent tool_list
                (Llm Gemini (PStr "gemini-pro") (Some "secret") PNone)
                true PNone |}.

End Scenario.

(** ** Vocabulary of the statements *)

(** A transport failure (an exception of the [requests] family) or an
    error status. *)
Definition transport_or_http_error (o : http_outcome) : Prop :=
  match o with
  | NetRaises e => is_RequestException e = true
  | NetResponse r => (400 ≤ status_code r < 600)%Z
  end.

(** The body [{score, message}] that the submit endpoint answers with. *)
Definition score_response (score : pyval) (message : string) : pyval :=
  PDict [("score", score); ("message", PStr message)].

(** [name] occurs in [msg]. *)
Definition mentions (name msg : string) : Prop :=
  ∃ before after, msg = before +:+ name +:+ after.

(** The value that [config.get("provider", "")] reads from the items of
    the configuration. *)
Definition configured_provider (d : list (string * pyval)) : pyval :=
  default (PStr EmptyString) (dict_lookup "provider" d).

(** The closed set of providers. *)
Definition supported_provider (p : pyval) : Prop :=
  p = PStr "gemini" ∨ p = PStr "openai".

(** The arguments that [__init__] hands to the LLM class of a supported
    provider. *)
Definition configured_llm `{E : Externals} (d : list (string * pyval)) : llm :=
  if py_eq_str (configured_provider d) "gemini" then
    Llm Gemini (default (PStr EmptyString) (dict_lookup "model_name" d))
      (environ "GEMINI_API_KEY") (default PNone (dict_lookup "temperature" d))
  else
    Llm OpenAI (default (PStr EmptyString) (dict_lookup "model_name" d))
      (environ "OPENAI_API_KEY") (default PNone (dict_lookup "temperature" d)).

(** Construction fails with an exception of the class named
    [ConfigurationError] whose message mentions the provider. *)
Definition fails_with_ConfigurationError (r : outcome GAIAAgent)
    (provider_name : string) : Prop :=
  ∃ e, r = Raise e
       ∧ class_name (exn_cls e) = "ConfigurationError"
       ∧ mentions provider_name (exn_str e).

(** The world in which the loop runs when the output is captured:
    a fresh stream, and [sys.stdout] bound to it. *)
Definition redirected (w : world) : world :=
  set_sys_stdout (length (streams w)) (set_streams (streams w ++ [EmptyString]) w).

(** [answer] is the record that the batch loop builds for [question]:
    the question's task id, an answer text and a reasoning trace. *)
Definition answer_for (question answer : pyval) : Prop :=
  ∃ d task_id response reasoning,
    question = PDict d
    ∧ dict_lookup "task_id" d = Some task_id
    ∧ answer = PDict [("task_id", task_id);
                      ("submitted_answer", PStr response);
                      ("reasoning_trace", PStr reasoning)].

(** [answer["task_id"]] and [question["task_id"]] are the same value. *)
Definition same_task_id (question answer : pyval) : Prop :=
  ∃ dq da task_id,
    question = PDict dq ∧ answer = PDict da
    ∧ dict_lookup "task_id" dq = Some task_id
    ∧ dict_lookup "task_id" da = Some task_id.

(** A question as the service sends it: a dict with the two keys that
    the batch loop reads. *)
Definition well_formed_question (q : pyval) : Prop :=
  ∃ d, q = PDict d
       ∧ is_Some (dict_lookup "question" d)
       ∧ is_Some (dict_lookup "task_id" d).

(** The external loop ends every run by returning. *)
Definition never_raises `{E : Externals} (self : GAIAAgent) : Prop :=
  ∀ w prompt, ∃ response, returned (react_achat (agent self) w prompt) = Ok response.

(** The three failure conditions of fetching the questions. *)
Inductive failure : Type :=
| TransportFailure
| ProtocolFailure
| NoQuestions.

(** What [requests.get] answers when [fetch_questions] asks, which is
    after its first [print]. *)
Definition questions_reply `{E : Externals} (w : world) (timeout : Z)
  : http_outcome :=
  requests_get_reply (snd (print "Fetching questions..." w)) QUESTIONS_URL
    (Some timeout).

(** The failure condition, if any, that the endpoint's reply puts
    [fetch_questions] in: a transport failure is an exception of the
    HTTP library other than its decoding error, or an error status; a
    protocol failure is a body that is not JSON, or JSON that is not an
    array; and then there is the empty array. *)
Definition questions_failure `{E : Externals} (w : world) (timeout : Z)
  : option failure :=
  match questions_reply w timeout with
  | NetRaises e =>
      if is_RequestException e && negb (is_JSONDecodeError e)
      then Some TransportFailure else None
  | NetResponse r =>
      if (400 <=? status_code r)%Z && (status_code r <? 600)%Z
      then Some TransportFailure
      else match json r with
           | Raise e => if is_JSONDecodeError e then Some ProtocolFailure else None
           | Ok (PList []) => Some NoQuestions
           | Ok (PList (_ :: _)) => None
           | Ok _ => Some ProtocolFailure
           end
  end.

(** The three failure conditions give pairwise different results. *)
Definition failures_distinguishable : Prop :=
  ∀ (E1 E2 : Externals) (w1 w2 : world) (t1 t2 : Z) (k1 k2 : failure),
    @questions_failure E1 w1 t1 = Some k1 →
    @questions_failure E2 w2 t2 = Some k2 →
    k1 ≠ k2 →
    fst (@fetch_questions E1 t1 w1) ≠ fst (@fetch_questions E2 t2 w2).

(** [len(v)] raises. *)
Definition has_no_len (v : pyval) : Prop :=
  match v with
  | PNone | PBool _ | PInt _ | PFloat _ | PCoroutine _ => True
  | _ => False
  end.

(** The replies on which [fetch_questions] ends in [None]: a body that
    decodes to a falsy value (the empty array among them) or to a value
    without a length, and every exception of class [Exception] that is
    not of the HTTP library's family. *)
Definition collapses_to_None `{E : Externals} (w : world) (timeout : Z) : Prop :=
  match questions_reply w timeout with
  | NetRaises e => is_RequestException e = false ∧ is_Exception e = true
  | NetResponse r =>
      ¬ (400 ≤ status_code r < 600)%Z
      ∧ match json r with
        | Raise e => is_RequestException e = false ∧ is_Exception e = true
        | Ok v => py_truthy v = false ∨ has_no_len v
        end
  end.

Definition is_get (ev : event) : bool :=
  match ev with EvGet _ => true | _ => false end.

(** From [w] to [w'] the process made GET requests only: it sent no
    POST and did not invoke the agent loop. *)
Definition only_gets_added (w w' : world) : Prop :=
  ∃ evs, trace w' = (trace w ++ evs)%list ∧ forallb is_get evs = true.

(** A computation that makes GET requests only, from every world. *)
Definition gets_only {A} (m : M A) : Prop :=
  ∀ w, only_gets_added w (snd (m w)).

(** ** Vocabulary of the further properties *)

(** Everything the loop wrote, in the order it wrote it. *)
Definition concat_chunks (chunks : list string) : string :=
  fold_right String.append EmptyString chunks.


Definition task_id_of (q : pyval) : pyval :=
  match q with
  | PDict d => default PNone (dict_lookup "task_id" d)
  | _ => PNone
  end.

(** The dict [files] holds bytes under the task id of a table entry. *)
Definition has_bytes (files : files_dict) (entry : string * string) : Prop :=
  ∃ b, files_lookup (fst entry) files = Some (PBytes b).

(** The path that the second loop of the download writes for an entry. *)
Definition stored_path (entry : string * string) : string :=
  "files/" +:+ snd entry.

(** The reply makes [fetch_questions] end in its first [except]
    clause: a transport failure, an error status, or a body that is
    not JSON. *)
Definition request_failure (reply : http_outcome) : Prop :=
  transport_or_http_error reply
  ∨ ∃ r e, reply = NetResponse r ∧ json r = Raise e ∧ is_RequestException e = true.

(** The reply carries a body that decodes to a non-empty sized value,
    such as a non-empty list of questions. *)
Definition decodes_to (reply : http_outcome) (v : pyval) : Prop :=
  ∃ r, reply = NetResponse r
       ∧ ¬ (400 ≤ status_code r < 600)%Z
       ∧ json r = Ok v.

(** The payload that [submit_answers] posts. *)
Definition submit_payload (username agent_code answers : pyval) : pyval :=
  PDict [("username", username); ("agent_code", agent_code);
         ("answers", answers)].

(** Every run of [m] takes a world to one that [R] relates to it. *)
Definition steps {A} (R : world → world → Prop) (m : M A) : Prop :=
  ∀ w, R w (snd (m w)).

(** From [w] to [w'] nothing left the process and the disk is as it
    was: only streams may have changed. *)
Definition keeps_trace_and_disk (w w' : world) : Prop :=
  trace w' = trace w ∧ fs w' = fs w ∧ files_dir w' = files_dir w.

(** ** Properties *)

(** *** The attachment client fails soft (api.py) *)

Section api_facts.
Context {E : Externals}.

Ltac case_status :=
  repeat match goal with
    | |- context [(?a <=? ?b)%Z] => destruct (Z.leb_spec a b)
    | |- context [(?a <? ?b)%Z] => destruct (Z.ltb_spec a b)
    end; simpl.

Lemma raise_for_status_error url r w :
  (400 ≤ status_code r < 600)%Z →
  ∃ e, raise_for_status url r w = (Raise e, w) ∧ exn_cls e = HTTPError.
Proof.
  intros Hin. unfold raise_for_status.
  case_status; try lia; eexists; split; reflexivity.
Qed.

Lemma raise_for_status_fine url r w :
  ¬ (400 ≤ status_code r < 600)%Z →
  raise_for_status url r w = (Ok tt, w).
Proof.
  intros Hout. unfold raise_for_status.
  case_status; try reflexivity; exfalso; apply Hout; lia.
Qed.

Lemma raise_for_status_cases url r w :
  (∃ e, raise_for_status url r w = (Raise e, w) ∧ exn_cls e = HTTPError
        ∧ (400 ≤ status_code r < 600)%Z)
  ∨ (raise_for_status url r w = (Ok tt, w) ∧ ¬ (400 ≤ status_code r < 600)%Z).
Proof.
  destruct (decide (400 ≤ status_code r < 600)%Z) as [Hin | Hout].
  - left. destruct (raise_for_status_error url r w Hin) as (e & He & Hc). eauto.
  - right. split; [by apply raise_for_status_fine | done].
Qed.

End api_facts.

(** C5.  For every task id, [get_file] returns to its caller: provided
    the HTTP library raises only exceptions of its own family, the
    result is either [None] or the bytes of the response, and it is
    [None] on every transport failure and on every 4xx or 5xx status (a
    task without a stored file).  No exception reaches the caller. *)
Theorem get_file_fails_soft `{E : Externals} (task_id : pyval) (w : world) :
  let reply := requests_get_reply w (FILES_URL +:+ "/" +:+ py_str task_id) None in
  (∀ e, reply = NetRaises e → is_RequestException e = true) →
  ∃ v, fst (get_file task_id w) = Ok v
       ∧ (v = PNone ∨ ∃ r, reply = NetResponse r ∧ v = PBytes (content r))
       ∧ (transport_or_http_error reply → v = PNone).
Proof.
  intros reply Hfamily. subst reply.
  unfold get_file, try_except, bind, requests_get.
  destruct (requests_get_reply w _ None) as [e | r] eqn:Hreply.
  - rewrite (Hfamily e eq_refl). simpl.
    exists PNone. split; [reflexivity | split; [by left | done]].
  - destruct (raise_for_status_cases (FILES_URL +:+ "/" +:+ py_str task_id) r
                (log_event (EvGet (FILES_URL +:+ "/" +:+ py_str task_id)) w))
      as [(e & -> & Hcls & Hst) | [-> Hst]].
    + unfold is_RequestException. rewrite Hcls. simpl.
      exists PNone. split; [reflexivity | split; [by left | done]].
    + simpl. exists (PBytes (content r)).
      split; [reflexivity | split; [right; eauto | intros Hbad; simpl in Hbad; done]].
Qed.

(** The theorem at a task whose file request is answered 404. *)
Lemma get_file_fails_soft_witness :
  ∃ v, fst (@get_file Scenario.no_files (PStr "T1") Scenario.w0) = Ok v
       ∧ (v = PNone
          ∨ ∃ r, @requests_get_reply Scenario.no_files Scenario.w0
                   (FILES_URL +:+ "/" +:+ "T1") None = NetResponse r
                 ∧ v = PBytes (content r))
       ∧ (transport_or_http_error
            (@requests_get_reply Scenario.no_files Scenario.w0
               (FILES_URL +:+ "/" +:+ "T1") None) → v = PNone).
Proof.
  apply (@get_file_fails_soft Scenario.no_files (PStr "T1") Scenario.w0).
  intros e He. vm_compute in He. discriminate He.
Defined.

(** *** The agent runner and its capture of [sys.stdout] (agent.py) *)

Section agent_facts.
Context {E : Externals}.

(** What the loop prints lands in the stream bound to [sys.stdout] and
    nowhere else: the binding, the disk and the trace stay as they are,
    no stream is made, and every stream with a smaller index keeps its
    contents. *)
Lemma emit_frame (chunks : list string) (w : world) :
  let w' := fold_left (λ w' s, write_stream (sys_stdout w') s w') chunks w in
  sys_stdout w' = sys_stdout w
  ∧ files_dir w' = files_dir w
  ∧ fs w' = fs w
  ∧ trace w' = trace w
  ∧ length (streams w') = length (streams w)
  ∧ take (sys_stdout w) (streams w') = take (sys_stdout w) (streams w).
Proof.
  revert w. induction chunks as [| s chunks IH]; intros w; simpl.
  - repeat split; reflexivity.
  - destruct (IH (write_stream (sys_stdout w) s w)) as (H1 & H2 & H3 & H4 & H5 & H6).
    simpl in *. repeat split; try assumption.
    + rewrite H5. apply length_alter.
    + rewrite H6. apply take_alter_ge. lia.
Qed.

Lemma achat_frame (a : react_agent) (prompt : string) (w : world) :
  let w' := snd (achat a prompt w) in
  sys_stdout w' = sys_stdout w
  ∧ files_dir w' = files_dir w
  ∧ fs w' = fs w
  ∧ trace w' = (trace w ++ [EvAchat prompt])%list
  ∧ length (streams w') = length (streams w)
  ∧ take (sys_stdout w) (streams w') = take (sys_stdout w) (streams w).
Proof.
  unfold achat. simpl.
  destruct (emit_frame (emitted (react_achat a w prompt))
              (log_event (EvAchat prompt) w)) as (H1 & H2 & H3 & H4 & H5 & H6).
  simpl in *. repeat split; assumption.
Qed.

Lemma achat_result (a : react_agent) (prompt : string) (w : world) :
  fst (achat a prompt w) = returned (react_achat a w prompt).
Proof. reflexivity. Qed.

(** [run] with capture, step by step. *)
Lemma run_capture_unfold (self : GAIAAgent) (question : pyval) (w : world) :
  let prompt := format general_instructions question in
  let wa := snd (achat (agent self) prompt (redirected w)) in
  let wr := set_sys_stdout (sys_stdout w) wa in
  run self question true w =
    match returned (react_achat (agent self) (redirected w) prompt) with
    | Ok response =>
        (Ok (response, default EmptyString (streams wr !! length (streams w))), wr)
    | Raise e => (Raise e, wr)
    end.
Proof.
  simpl. unfold run, bind, new_StringIO, try_finally, getvalue, ret. simpl.
  fold (redirected w).
  destruct (achat (agent self) (format general_instructions question) (redirected w))
    as [r wa] eqn:Hachat.
  pose proof (achat_result (agent self) (format general_instructions question)
                (redirected w)) as Hres.
  rewrite Hachat in Hres. simpl in Hres. rewrite <- Hres.
  destruct r; reflexivity.
Qed.

End agent_facts.

(** C6.  Without capture, [run] hands back the empty string as the
    reasoning text next to the loop's own answer, whatever the loop
    printed; it raises only what the loop raised. *)
Theorem run_without_capture_empty_reasoning `{E : Externals}
    (self : GAIAAgent) (question : pyval) (w : world) :
  match fst (run self question false w) with
  | Ok (response, reasoning) =>
      reasoning = EmptyString
      ∧ returned (react_achat (agent self) w
                    (format general_instructions question)) = Ok response
  | Raise e =>
      returned (react_achat (agent self) w
                  (format general_instructions question)) = Raise e
  end.
Proof.
  unfold run, bind. 
  destruct (achat (agent self) (format general_instructions question) w)
    as [r w'] eqn:Hachat.
  pose proof (achat_result (agent self) (format general_instructions question) w)
    as Hres.
  rewrite Hachat in Hres. simpl in Hres. rewrite <- Hres.
  destruct r; simpl; [split; reflexivity | reflexivity].
Qed.

(** C7.  With capture, in a process whose [sys.stdout] is a live stream,
    [sys.stdout] is bound to the same stream after [run] as before it,
    whether the loop returned or raised, and that stream, like every
    stream that existed before the call, holds exactly what it held: no
    output of the loop reached it. *)
Theorem run_capture_restores_stdout `{E : Externals}
    (self : GAIAAgent) (question : pyval) (w : world) :
  sys_stdout w < length (streams w) →
  let w' := snd (run self question true w) in
  sys_stdout w' = sys_stdout w
  ∧ streams w' !! sys_stdout w = streams w !! sys_stdout w
  ∧ take (length (streams w)) (streams w') = streams w.
Proof.
  intros Hlive w'. subst w'.
  pose proof (run_capture_unfold self question w) as Hrun. cbv zeta in Hrun.
  pose proof (achat_frame (agent self) (format general_instructions question)
                (redirected w)) as (_ & _ & _ & _ & _ & Htake).
  change (sys_stdout (redirected w)) with (length (streams w)) in Htake.
  change (streams (redirected w)) with (streams w ++ [EmptyString])%list in Htake.
  rewrite take_app_length in Htake.
  assert (Hw' : sys_stdout (snd (run self question true w)) = sys_stdout w
                ∧ streams (snd (run self question true w))
                  = streams (snd (achat (agent self)
                                    (format general_instructions question)
                                    (redirected w)))).
  { rewrite Hrun. destruct (returned _); split; reflexivity. }
  destruct Hw' as [Hout Hstreams].
  split; [exact Hout |].
  rewrite Hstreams. split; [| exact Htake].
  rewrite <- (lookup_take_lt _ (length (streams w))) by exact Hlive.
  rewrite Htake. reflexivity.
Qed.

(** The theorem on a loop that prints a line and is then cancelled. *)
Lemma run_capture_restores_stdout_witness :
  let w' := snd (@run Scenario.interrupted Scenario.gemini_agent
                   (PStr "Capital of France?") true Scenario.w0) in
  sys_stdout w' = sys_stdout Scenario.w0
  ∧ streams w' !! sys_stdout Scenario.w0
    = streams Scenario.w0 !! sys_stdout Scenario.w0
  ∧ take (length (streams Scenario.w0)) (streams w') = streams Scenario.w0.
Proof.
  apply (@run_capture_restores_stdout Scenario.interrupted Scenario.gemini_agent
           (PStr "Capital of France?") Scenario.w0).
  simpl. lia.
Defined.

(** The two modes on a loop that prints two lines: the lines end up in
    the captured text, or on the process's stream. *)
Example run_capture_talkative :
  let r := @run Scenario.offline Scenario.gemini_agent
             (PStr "Capital of France?") true Scenario.w0 in
  fst r = Ok ("Paris",
              "Thought: I need to answer the question." +:+ nl
                +:+ "Action: Search" +:+ nl)
  ∧ sys_stdout (snd r) = 0
  ∧ streams (snd r) !! 0 = Some EmptyString.
Proof. vm_compute. repeat split; reflexivity. Qed.

Example run_plain_talkative :
  let r := @run Scenario.offline Scenario.gemini_agent
             (PStr "Capital of France?") false Scenario.w0 in
  fst r = Ok ("Paris", EmptyString)
  ∧ streams (snd r) !! 0
    = Some ("Thought: I need to answer the question." +:+ nl
              +:+ "Action: Search" +:+ nl).
Proof. vm_compute. repeat split; reflexivity. Qed.

Example run_capture_cancelled :
  fst (@run Scenario.interrupted Scenario.gemini_agent
         (PStr "Capital of France?") true Scenario.w0)
  = Raise (Exn (OtherBaseException "CancelledError") EmptyString).
Proof. vm_compute. reflexivity. Qed.

(** *** Submission failures (api.py) *)

(** A payload that does not serialise fails with a [TypeError] or with
    the HTTP library's own error. *)
Lemma json_dumps_error_class (v : pyval) (e : exn) :
  json_dumps_error v = Some e →
  exn_cls e = TypeError ∨ exn_cls e = RequestException.
Proof.
  revert e. induction v as [| b | z | f | s | s | l IH | l IH | d IH | fn]
    using pyval_nested_ind; intros e He; simpl in He; try discriminate He.
  - destruct (PrimFloat.is_nan f || PrimFloat.is_infinity f); [| discriminate He].
    injection He as <-. by right.
  - injection He as <-. by left.
  - induction IH as [| x l Hx _ IHl]; [discriminate He |].
    destruct (json_dumps_error x) as [e' |] eqn:Hx'.
    + injection He as <-. by apply Hx.
    + by apply IHl.
  - induction IH as [| x l Hx _ IHl]; [discriminate He |].
    destruct (json_dumps_error x) as [e' |] eqn:Hx'.
    + injection He as <-. by apply Hx.
    + by apply IHl.
  - induction IH as [| [k x] d Hx _ IHd]; [discriminate He |].
    simpl in Hx. destruct (json_dumps_error x) as [e' |] eqn:Hx'.
    + injection He as <-. by apply Hx.
    + by apply IHd.
  - injection He as <-. by left.
Qed.

Section submit_facts.
Context {E : Externals}.

(** Every exception of class [Exception] that reaches the clauses of
    [submit_answers] while [response] is bound, or that is not a
    [JSONDecodeError], ends in [None]. *)
Lemma submit_answers_except_None (response : option response) (e : exn) (w : world) :
  is_Exception e = true →
  (is_JSONDecodeError e = true → is_RequestException e = true) →
  ∃ h, submit_answers_except response e = Some h ∧ fst (h w) = Ok PNone.
Proof.
  intros Hexc Hjson. unfold submit_answers_except.
  destruct (is_RequestException e) eqn:Hreq.
  - eexists; split; [reflexivity | reflexivity].
  - destruct (is_JSONDecodeError e) eqn:Hj; [specialize (Hjson eq_refl); discriminate |].
    rewrite Hexc. eexists; split; reflexivity.
Qed.

Lemma JSONDecodeError_is_RequestException (e : exn) :
  is_JSONDecodeError e = true → is_RequestException e = true.
Proof.
  unfold is_JSONDecodeError, is_RequestException.
  destruct (exn_cls e); done.
Qed.

Lemma RequestException_is_Exception (e : exn) :
  is_RequestException e = true → is_Exception e = true.
Proof.
  unfold is_Exception, is_RequestException.
  destruct (exn_cls e); done.
Qed.

End submit_facts.

(** C9.  When the submit endpoint fails, by a transport failure or by a
    4xx or 5xx status such as 500, [submit_answers] returns [None]; that
    is no score response, so in particular not one with score zero. *)
Theorem submit_answers_failure_is_not_a_score `{E : Externals}
    (username agent_code answers : pyval) (w : world) :
  transport_or_http_error
    (requests_post_reply w SUBMIT_URL
       (PDict [("username", username); ("agent_code", agent_code);
               ("answers", answers)])) →
  fst (submit_answers username agent_code answers w) = Ok PNone
  ∧ ∀ score message,
      fst (submit_answers username agent_code answers w)
      ≠ Ok (score_response score message).
Proof.
  intros Hfail.
  assert (Hnone : fst (submit_answers username agent_code answers w) = Ok PNone).
  { unfold submit_answers, try_except_bound, requests_post.
    destruct (json_dumps_error _) as [e |] eqn:Hser.
    - destruct (submit_answers_except_None None e w) as (h & -> & Hh).
      + destruct (json_dumps_error_class _ _ Hser) as [Hc | Hc];
          unfold is_Exception; rewrite Hc; reflexivity.
      + apply JSONDecodeError_is_RequestException.
      + exact Hh.
    - destruct (requests_post_reply w SUBMIT_URL _) as [e | r] eqn:Hreply;
        simpl in Hfail.
      + destruct (submit_answers_except_None None e
                    (log_event (EvPost SUBMIT_URL
                       (PDict [("username", username); ("agent_code", agent_code);
                               ("answers", answers)])) w)) as (h & -> & Hh).
        * by apply RequestException_is_Exception.
        * apply JSONDecodeError_is_RequestException.
        * exact Hh.
      + unfold try_except, bind.
        destruct (raise_for_status_error SUBMIT_URL r
                    (log_event (EvPost SUBMIT_URL
                       (PDict [("username", username); ("agent_code", agent_code);
                               ("answers", answers)])) w) Hfail) as (e & -> & Hcls).
        destruct (submit_answers_except_None (Some r) e
                    (log_event (EvPost SUBMIT_URL
                       (PDict [("username", username); ("agent_code", agent_code);
                               ("answers", answers)])) w)) as (h & -> & Hh).
        * unfold is_Exception. rewrite Hcls. reflexivity.
        * apply JSONDecodeError_is_RequestException.
        * exact Hh. }
  split; [exact Hnone |].
  intros score message Heq. rewrite Hnone in Heq. discriminate Heq.
Qed.

(** The theorem on an endpoint that answers 500. *)
Lemma submit_answers_failure_is_not_a_score_witness :
  fst (@submit_answers Scenario.offline (PStr "user") (PStr "http://code.url")
         (PList []) Scenario.w0) = Ok PNone
  ∧ ∀ score message,
      fst (@submit_answers Scenario.offline (PStr "user") (PStr "http://code.url")
             (PList []) Scenario.w0)
      ≠ Ok (score_response score message).
Proof.
  apply (@submit_answers_failure_is_not_a_score Scenario.offline).
  simpl. lia.
Defined.

(** *** The file reading tools (tools.py) *)

(** C10.  Both tools ignore their argument.  Called with any two
    strings in the same state they give the same result and leave the
    same state; more precisely the result of [read_excel_file] is
    decided by the file at [files/menu_items.xlsx] alone, that of
    [read_python_script] by the file at [files/python_code.py] alone. *)
Theorem file_tools_ignore_file_name `{E : Externals}
    (a b : string) (w1 w2 : world) :
  read_excel_file a w1 = read_excel_file b w1
  ∧ read_python_script a w1 = read_python_script b w1
  ∧ (fs w1 !! "files/menu_items.xlsx" = fs w2 !! "files/menu_items.xlsx" →
     fst (read_excel_file a w1) = fst (read_excel_file b w2))
  ∧ (fs w1 !! "files/python_code.py" = fs w2 !! "files/python_code.py" →
     fst (read_python_script a w1) = fst (read_python_script b w2)).
Proof.
  split; [reflexivity |]. split; [reflexivity |]. split.
  - intros Hsame.
    unfold read_excel_file, try_except, bind, pd_read_excel, lift.
    change ("files/" +:+ "menu_items.xlsx") with "files/menu_items.xlsx".
    rewrite <- Hsame.
    destruct (fs w1 !! "files/menu_items.xlsx") as [bytes |]; simpl.
    + destruct (pd_parse_excel bytes) as [df | e]; simpl.
      * destruct (df_to_markdown df) as [md | e]; simpl; [reflexivity |].
        destruct (is_Exception e); reflexivity.
      * destruct (is_Exception e); reflexivity.
    + reflexivity.
  - intros Hsame.
    unfold read_python_script, try_except, bind, read_text.
    change ("files/" +:+ "python_code.py") with "files/python_code.py".
    rewrite <- Hsame.
    destruct (fs w1 !! "files/python_code.py") as [bytes |]; simpl.
    + destruct (decode_text bytes) as [code | e]; simpl; [reflexivity |].
      destruct (is_Exception e); reflexivity.
    + reflexivity.
Qed.

(** The theorem on two states that differ in every other respect. *)
Lemma file_tools_ignore_file_name_witness :
  let w2 := World 3 [] false (<[ "files/other.py" := "pass" ]> (fs Scenario.w0))
              [EvGet "x"] in
  fst (@read_excel_file Scenario.offline "menu_items.xlsx" Scenario.w0)
  = fst (@read_excel_file Scenario.offline "../secret.xlsx" w2)
  ∧ fst (@read_python_script Scenario.offline "python_code.py" Scenario.w0)
    = fst (@read_python_script Scenario.offline "/etc/passwd" w2).
Proof.
  intros w2.
  destruct (@file_tools_ignore_file_name Scenario.offline
              "menu_items.xlsx" "../secret.xlsx" Scenario.w0 w2)
    as (_ & _ & Hx & _).
  destruct (@file_tools_ignore_file_name Scenario.offline
              "python_code.py" "/etc/passwd" Scenario.w0 w2)
    as (_ & _ & _ & Hp).
  split; [apply Hx | apply Hp]; vm_compute; reflexivity.
Defined.

(** What the tools return when the script is there and when it is not. *)
Example read_python_script_present :
  fst (@read_python_script Scenario.offline "whatever.py"
         (set_fs (<[ "files/python_code.py" := "print(1)" ]> (fs Scenario.w0))
            Scenario.w0))
  = Ok "print(1)".
Proof. vm_compute. reflexivity. Qed.

Example read_python_script_missing :
  fst (@read_python_script Scenario.offline "files/other.py" Scenario.w0)
  = Ok ("Error: Failed to read the Python script. Reason: "
          +:+ "[Errno 2] No such file or directory: 'files/python_code.py'").
Proof. vm_compute. reflexivity. Qed.

(** *** The provider check of [GAIAAgent.__init__] (agent.py) *)

Lemma py_eq_str_spec (v : pyval) (s : string) :
  py_eq_str v s = true ↔ v = PStr s.
Proof.
  destruct v; simpl; try (split; [discriminate | discriminate]).
  rewrite String.eqb_eq. split; [by intros -> | by intros [= ->]].
Qed.

Lemma unsupported_provider_tests (p : pyval) :
  ¬ supported_provider p →
  py_eq_str p "gemini" = false ∧ py_eq_str p "openai" = false.
Proof.
  intros Hno. split; apply not_true_is_false; intros Heq;
    apply py_eq_str_spec in Heq; apply Hno; [by left | by right].
Qed.

Lemma append_empty_r (s : string) : s +:+ EmptyString = s.
Proof.
  induction s as [| c s IH]; [reflexivity |].
  change (String c (s +:+ EmptyString) = String c s). by rewrite IH.
Qed.

(** The message of the error mentions the provider it rejects. *)
Lemma unsupported_message_mentions `{E : Externals} (p : pyval) :
  mentions (py_str p) ("Unsupported provider: " +:+ py_str p).
Proof.
  exists "Unsupported provider: ", EmptyString.
  by rewrite append_empty_r.
Qed.

(** The claim as worded fails on the configuration
    [{provider: unknown}]: the exception that comes out is not of a
    class named [ConfigurationError]. *)
Lemma unknown_provider_not_ConfigurationError :
  ¬ fails_with_ConfigurationError
      (fst (@GAIAAgent_init Scenario.offline
              (PDict [("provider", PStr "unknown")]) Scenario.w0))
      "unknown".
Proof.
  intros (e & He & Hname & _).
  vm_compute in He. injection He as <-.
  vm_compute in Hname. discriminate Hname.
Qed.

(** C8, amended.  On a configuration mapping whose provider (the empty
    string when the key is missing) is neither [gemini] nor [openai],
    construction raises the built-in [ValueError] with the message
    [Unsupported provider: ] followed by the provider, and changes
    nothing.  On a supported provider that error is not raised:
    construction returns the agent, unless one of the framework's two
    constructors raises, in which case that exception comes out. *)
Theorem GAIAAgent_init_provider_check `{E : Externals}
    (d : list (string * pyval)) (w : world) :
  (¬ supported_provider (configured_provider d) →
   GAIAAgent_init (PDict d) w
   = (Raise (Exn ValueError
               ("Unsupported provider: " +:+ py_str (configured_provider d))), w))
  ∧ (supported_provider (configured_provider d) →
     GAIAAgent_init (PDict d) w
     = (match llm_init_error (configured_llm d) with
        | Some e => Raise e
        | None =>
            match react_init_error
                    (ReActAgent tool_list (configured_llm d) true PNone) with
            | Some e => Raise e
            | None =>
                Ok {| agent := ReActAgent tool_list (configured_llm d) true PNone |}
            end
        end, w)).
Proof.
  split.
  - intros Hno. destruct (unsupported_provider_tests _ Hno) as [Hg Ho].
    unfold GAIAAgent_init, bind, py_get, ret.
    fold (configured_provider d). rewrite Hg, Ho. reflexivity.
  - intros Hyes.
    unfold GAIAAgent_init, bind, py_get, ret, configured_llm.
    fold (configured_provider d).
    destruct Hyes as [Hp | Hp]; rewrite Hp; simpl;
      unfold new_llm, new_ReActAgent, raise, ret;
      destruct (llm_init_error _); try reflexivity;
      destruct (react_init_error _); reflexivity.
Qed.

(** The theorem on [{provider: unknown}], on a configuration without
    the key and on [{provider: gemini}]. *)
Lemma GAIAAgent_init_provider_check_witness :
  fst (@GAIAAgent_init Scenario.offline
         (PDict [("provider", PStr "unknown")]) Scenario.w0)
  = Raise (Exn ValueError "Unsupported provider: unknown")
  ∧ fst (@GAIAAgent_init Scenario.offline
           (PDict [("model_name", PStr "gpt-4")]) Scenario.w0)
    = Raise (Exn ValueError "Unsupported provider: ")
  ∧ fst (@GAIAAgent_init Scenario.offline
           (PDict [("provider", PStr "gemini"); ("model_name", PStr "gemini-pro")])
           Scenario.w0)
    = Ok Scenario.gemini_agent.
Proof.
  split; [| split].
  - rewrite (proj1 (@GAIAAgent_init_provider_check Scenario.offline
                      [("provider", PStr "unknown")] Scenario.w0)).
    + reflexivity.
    + intros [H | H]; vm_compute in H; discriminate H.
  - rewrite (proj1 (@GAIAAgent_init_provider_check Scenario.offline
                      [("model_name", PStr "gpt-4")] Scenario.w0)).
    + reflexivity.
    + intros [H | H]; vm_compute in H; discriminate H.
  - rewrite (proj2 (@GAIAAgent_init_provider_check Scenario.offline
                      [("provider", PStr "gemini"); ("model_name", PStr "gemini-pro")]
                      Scenario.w0)).
    + reflexivity.
    + left. reflexivity.
Defined.

(** *** The batch loop (main.py) *)

Section batch_facts.
Context {E : Externals}.

Lemma py_getitem_Ok (v : pyval) (key : string) (x : pyval) (w w' : world) :
  py_getitem v key w = (Ok x, w') →
  w' = w ∧ ∃ d, v = PDict d ∧ dict_lookup key d = Some x.
Proof.
  destruct v; unfold py_getitem, raise, ret; try (intros [=]; fail).
  destruct (dict_lookup key d) as [y |] eqn:Hy; intros Heq;
    [| discriminate Heq].
  injection Heq as <- <-. split; [reflexivity | eauto].
Qed.

Lemma py_getitem_present (d : list (string * pyval)) (key : string) (w : world) :
  is_Some (dict_lookup key d) →
  ∃ x, dict_lookup key d = Some x ∧ py_getitem (PDict d) key w = (Ok x, w).
Proof. intros [x Hx]. exists x. simpl. by rewrite Hx. Qed.

(** With capture, [run] returns whenever the loop does. *)
Lemma run_capture_returns (self : GAIAAgent) (question : pyval) (w : world) :
  never_raises self →
  ∃ response captured w', run self question true w = (Ok (response, captured), w').
Proof.
  intros Hnever. rewrite run_capture_unfold. cbv zeta.
  destruct (Hnever (redirected w) (format general_instructions question))
    as [response ->].
  eauto.
Qed.

(** The loop appends one record per question, in order, to the list it
    started with. *)
Lemma answer_loop_appends (self : GAIAAgent) (qs : list pyval) :
  ∀ (acc : list pyval) (w : world) (answers : list pyval) (w' : world),
    answer_loop self qs acc w = (Ok answers, w') →
    ∃ new, answers = (acc ++ new)%list ∧ Forall2 answer_for qs new.
Proof.
  induction qs as [| q qs IH]; intros acc w answers w' Hloop.
  - injection Hloop as <- <-. exists []. split; [by rewrite app_nil_r | constructor].
  - cbn [answer_loop] in Hloop. unfold bind in Hloop.
    destruct (py_getitem q "question" w) as [[query | e] w1] eqn:Hq;
      [| discriminate Hloop].
    apply py_getitem_Ok in Hq as (-> & d & -> & Hquery).
    destruct (run self query true w) as [[r | e] w2] eqn:Hrun;
      [| discriminate Hloop].
    destruct (py_getitem (PDict d) "task_id" w2) as [[task_id | e] w3] eqn:Ht;
      [| discriminate Hloop].
    apply py_getitem_Ok in Ht as (-> & d' & [= <-] & Htask).
    apply IH in Hloop as (new & -> & Hnew).
    eexists (_ :: new). split.
    + by rewrite <- app_assoc.
    + constructor; [| exact Hnew]. exists d, task_id, (fst r), (snd r). done.
Qed.

Lemma answer_loop_returns (self : GAIAAgent) (qs : list pyval) :
  never_raises self →
  Forall well_formed_question qs →
  ∀ (acc : list pyval) (w : world),
    ∃ answers w', answer_loop self qs acc w = (Ok answers, w').
Proof.
  intros Hnever Hwf. induction Hwf as [| q qs (d & -> & Hquestion & Htask) _ IH];
    intros acc w.
  - simpl. unfold ret. eauto.
  - cbn [answer_loop]. unfold bind.
    destruct (py_getitem_present d "question" w Hquestion) as (query & _ & ->).
    destruct (run_capture_returns self query w Hnever) as (response & captured & w2 & ->).
    destruct (py_getitem_present d "task_id" w2 Htask) as (task_id & _ & ->).
    apply IH.
Qed.

Lemma answer_for_same_task_id (q a : pyval) : answer_for q a → same_task_id q a.
Proof.
  intros (d & task_id & response & reasoning & -> & Htask & ->).
  exists d, [("task_id", task_id); ("submitted_answer", PStr response);
             ("reasoning_trace", PStr reasoning)], task_id.
  repeat split; try reflexivity; exact Htask.
Qed.

End batch_facts.

(** C2.  Whenever [answer_questions] returns on a fetched sequence of
    questions, what it returns is a list with one answer record per
    question: the same length, and at every index the record built for
    the question at that index, whose [task_id] is that question's.  It
    does return, whenever every question has the two keys and the agent
    loop ends every run by returning. *)
Theorem answer_questions_one_record_per_question `{E : Externals}
    (self : GAIAAgent) (qs : list pyval) (w : world) :
  (∀ result w', answer_questions self (PList qs) w = (Ok result, w') →
     ∃ answers, result = PList answers
       ∧ length answers = length qs
       ∧ ∀ i q, qs !! i = Some q →
           ∃ a, answers !! i = Some a ∧ answer_for q a ∧ same_task_id q a)
  ∧ (never_raises self → Forall well_formed_question qs →
     ∃ answers w', answer_questions self (PList qs) w = (Ok (PList answers), w')).
Proof.
  split.
  - intros result w' Hrun.
    unfold answer_questions, bind in Hrun. simpl in Hrun.
    destruct (answer_loop self qs [] w) as [[answers | e] w1] eqn:Hloop;
      [| discriminate Hrun].
    injection Hrun as <- <-.
    apply answer_loop_appends in Hloop as (new & -> & Hnew). simpl.
    exists new. split; [reflexivity |]. split.
    + symmetry. by eapply Forall2_length.
    + intros i q Hq.
      destruct (Forall2_lookup_l _ _ _ _ _ Hnew Hq) as (a & Ha & Hfor).
      exists a. split; [exact Ha |]. split; [exact Hfor |].
      by apply answer_for_same_task_id.
  - intros Hnever Hwf.
    destruct (answer_loop_returns self qs Hnever Hwf [] w) as (answers & w' & Hloop).
    exists answers, w'. unfold answer_questions, bind. simpl. by rewrite Hloop.
Qed.

(** The theorem on the questions T1, T2, T3 and a loop that answers
    [Paris] every time. *)
Lemma answer_questions_one_record_per_question_witness :
  ∃ answers w',
    @answer_questions Scenario.offline Scenario.gemini_agent
      (PList Scenario.three_questions) Scenario.w0
    = (Ok (PList answers), w').
Proof.
  apply (proj2 (@answer_questions_one_record_per_question Scenario.offline
                  Scenario.gemini_agent Scenario.three_questions Scenario.w0)).
  - intros w prompt. exists "Paris". reflexivity.
  - repeat constructor; eexists; (split; [reflexivity |]); split; eexists; reflexivity.
Defined.

(** The three records, in the order of the questions. *)
Example answer_questions_T1_T2_T3 :
  fst (@answer_questions Scenario.offline Scenario.gemini_agent
         (PList Scenario.three_questions) Scenario.w0)
  = Ok (PList
          (map (λ task_id,
                  PDict [("task_id", PStr task_id);
                         ("submitted_answer", PStr "Paris");
                         ("reasoning_trace",
                          PStr ("Thought: I need to answer the question." +:+ nl
                                  +:+ "Action: Search" +:+ nl))])
             ["T1"; "T2"; "T3"])).
Proof. vm_compute. reflexivity. Qed.

(** A question without the key [question] aborts the batch. *)
Example answer_questions_missing_key :
  fst (@answer_questions Scenario.offline Scenario.gemini_agent
         (PList [Scenario.a_question "T1" "Q1"; PDict [("task_id", PStr "T2")]])
         Scenario.w0)
  = Raise (Exn KeyError "'question'").
Proof. vm_compute. reflexivity. Qed.

(** *** The outcomes of [fetch_questions] (api.py) *)

Section fetch_facts.
Context {E : Externals}.

(** The second [except] clause of [fetch_questions] and of
    [submit_answers] is never taken: the first one takes every
    [JSONDecodeError]. *)
Lemma fetch_questions_except_decode_error (response : option response) (e : exn) :
  is_JSONDecodeError e = true →
  fetch_questions_except response e
  = Some (print ("Error fetching questions: " +:+ exn_str e) ;;;
          ret (PTuple [PStr ("Error fetching questions: " +:+ exn_str e); PNone])).
Proof.
  intros Hjson. unfold fetch_questions_except.
  by rewrite (JSONDecodeError_is_RequestException e Hjson).
Qed.

Lemma fetch_questions_except_None (response : option response) (e : exn) (w : world) :
  is_RequestException e = false →
  is_Exception e = true →
  ∃ h, fetch_questions_except response e = Some h ∧ fst (h w) = Ok PNone.
Proof.
  intros Hreq Hexc. unfold fetch_questions_except. rewrite Hreq.
  destruct (is_JSONDecodeError e) eqn:Hjson.
  - apply JSONDecodeError_is_RequestException in Hjson. congruence.
  - rewrite Hexc. eexists; split; reflexivity.
Qed.

Lemma py_len_no_len (v : pyval) (w : world) :
  has_no_len v →
  py_len v w = (Raise (Exn TypeError
                         ("object of type '" +:+ type_name v +:+ "' has no len()")), w).
Proof. destruct v; simpl; intros H; try reflexivity; destruct H. Qed.

(** [fetch_questions] up to the reply of the endpoint. *)
Lemma fetch_questions_unfold (timeout : Z) (w : world) :
  fetch_questions timeout w =
  let w1 := log_event (EvGet QUESTIONS_URL) (snd (print "Fetching questions..." w)) in
  match questions_reply w timeout with
  | NetRaises e =>
      match fetch_questions_except None e with
      | Some h => h w1
      | None => (Raise e, w1)
      end
  | NetResponse r =>
      try_except
        (raise_for_status QUESTIONS_URL r ;;;
         questions_data <~ response_json r ;;
         if negb (py_truthy questions_data) then
           print "Fetched questions list is empty." ;;;
           ret PNone
         else
           n <~ py_len questions_data ;;
           print ("Fetched " +:+ pretty n +:+ " questions.") ;;;
           ret questions_data)
        (fetch_questions_except (Some r)) w1
  end.
Proof.
  unfold fetch_questions, bind at 1, try_except_bound, requests_get, questions_reply.
  simpl. destruct (requests_get_reply _ QUESTIONS_URL (Some timeout)); reflexivity.
Qed.

End fetch_facts.

(** The claim as worded fails: a body [null], which is not a sequence
    of questions, and the empty sequence give the same result. *)
Lemma fetch_questions_failures_collapse : ¬ failures_distinguishable.
Proof.
  intros Hclaim.
  apply (Hclaim (Scenario.questions_body (Ok PNone))
                (Scenario.questions_body (Ok (PList [])))
                Scenario.w0 Scenario.w0 10%Z 10%Z ProtocolFailure NoQuestions).
  - vm_compute. reflexivity.
  - vm_compute. reflexivity.
  - discriminate.
  - vm_compute. reflexivity.
Qed.

(** C4, amended.  [fetch_questions] ends in the one result [None] on
    each of these: a body that decodes to a falsy value, which the
    empty sequence of questions is and [null], an empty object, zero
    and [false] are as well; a body that decodes to a value without a
    length; and an exception of class [Exception] outside the HTTP
    library's family, from the request or from the decoding. *)
Theorem fetch_questions_collapses_to_None `{E : Externals}
    (timeout : Z) (w : world) :
  collapses_to_None w timeout →
  fst (fetch_questions timeout w) = Ok PNone.
Proof.
  unfold collapses_to_None. rewrite fetch_questions_unfold. cbv zeta.
  destruct (questions_reply w timeout) as [e | r].
  - intros [Hreq Hexc].
    destruct (fetch_questions_except_None None e
                (log_event (EvGet QUESTIONS_URL)
                   (snd (print "Fetching questions..." w))) Hreq Hexc)
      as (h & -> & Hh).
    exact Hh.
  - intros [Hstatus Hbody].
    unfold try_except, bind at 1.
    rewrite (raise_for_status_fine _ _ _ Hstatus).
    unfold bind at 1, response_json, lift.
    destruct (json r) as [v | e].
    + destruct (py_truthy v) eqn:Htruthy; simpl.
      * destruct Hbody as [Hfalse | Hlen]; [discriminate Hfalse |].
        unfold bind at 1. rewrite (py_len_no_len _ _ Hlen). reflexivity.
      * reflexivity.
    + destruct Hbody as [Hreq Hexc].
      destruct (fetch_questions_except_None (Some r) e
                  (log_event (EvGet QUESTIONS_URL)
                     (snd (print "Fetching questions..." w))) Hreq Hexc)
        as (h & -> & Hh).
      exact Hh.
Qed.

(** The theorem on the body [null]. *)
Lemma fetch_questions_collapses_to_None_witness :
  fst (@fetch_questions (Scenario.questions_body (Ok PNone)) 10 Scenario.w0)
  = Ok PNone.
Proof.
  apply (@fetch_questions_collapses_to_None (Scenario.questions_body (Ok PNone))).
  unfold collapses_to_None.
  replace (@questions_reply (Scenario.questions_body (Ok PNone)) Scenario.w0 10)
    with (NetResponse (Scenario.ok_response "body" (Ok PNone)))
    by (vm_compute; reflexivity).
  simpl. split; [lia | by left].
Defined.

(** The results of the paths, one by one. *)
Example fetch_questions_success :
  fst (@fetch_questions
         (Scenario.questions_body (Ok (PList Scenario.three_questions)))
         10 Scenario.w0)
  = Ok (PList Scenario.three_questions).
Proof. vm_compute. reflexivity. Qed.

Example fetch_questions_empty :
  fst (@fetch_questions (Scenario.questions_body (Ok (PList []))) 10 Scenario.w0)
  = Ok PNone.
Proof. vm_compute. reflexivity. Qed.

Example fetch_questions_number :
  fst (@fetch_questions (Scenario.questions_body (Ok (PInt 5))) 10 Scenario.w0)
  = Ok PNone.
Proof. vm_compute. reflexivity. Qed.

Example fetch_questions_transport_failure :
  fst (@fetch_questions Scenario.offline 10 Scenario.w0)
  = Ok (PTuple [PStr "Error fetching questions: Connection refused"; PNone]).
Proof. vm_compute. reflexivity. Qed.

Example fetch_questions_not_json :
  fst (@fetch_questions (Scenario.questions_body Scenario.not_json) 10 Scenario.w0)
  = Ok (PTuple [PStr ("Error fetching questions: "
                        +:+ "Expecting value: line 1 column 1 (char 0)"); PNone]).
Proof. vm_compute. reflexivity. Qed.

(** *** Storing the attachments (main.py) *)

Section store_facts.
Context {E : Externals}.

(** The second loop of [download_questions_and_files] over any table:
    it completes only if the dict holds bytes under every task id of
    the table. *)
Lemma store_loop_needs_bytes (table : list (string * string))
    (files : files_dict) :
  ∀ w w',
    for_each table
      (λ entry,
         bytes_sequence <~ files_getitem files (fst entry) ;;
         write_file_wb ("files/" +:+ snd entry) bytes_sequence) w
    = (Ok tt, w') →
    Forall (λ entry, ∃ b, files_lookup (fst entry) files = Some (PBytes b)) table.
Proof.
  induction table as [| [task_id file_name] table IH]; intros w w' Hloop.
  - constructor.
  - cbn [for_each] in Hloop. unfold bind at 1 in Hloop.
    unfold bind at 1, files_getitem in Hloop. cbn [fst snd] in Hloop.
    destruct (files_lookup task_id files) as [v |] eqn:Hv;
      [| discriminate Hloop].
    unfold ret at 1, write_file_wb in Hloop.
    destruct (files_dir w); [| discriminate Hloop].
    destruct v; try discriminate Hloop.
    constructor; [eauto |]. by eapply IH.
Qed.

(** An attachment that was fetched as absent makes the loop raise at
    its entry, after the file was opened, hence created empty. *)
Lemma store_first_absent (files : files_dict) (w : world) :
  files_dir w = true →
  files_lookup "cca530fc-4052-43b2-b130-b30968d8aa44" files = Some PNone →
  store_files files w
  = (Raise (Exn TypeError "a bytes-like object is required, not 'NoneType'"),
     set_fs (<[ "files/chess_position.jpg" := EmptyString ]> (fs w)) w).
Proof.
  intros Hdir Habsent.
  unfold store_files, file_names. cbn [for_each]. unfold bind at 1.
  unfold bind at 1, files_getitem. cbn [fst snd]. rewrite Habsent.
  unfold ret at 1, write_file_wb. rewrite Hdir. reflexivity.
Qed.

(** A task id of the table that was not among the fetched questions
    makes the loop raise [KeyError], and nothing is written. *)
Lemma store_first_unfetched (files : files_dict) (w : world) :
  files_lookup "cca530fc-4052-43b2-b130-b30968d8aa44" files = None →
  store_files files w
  = (Raise (Exn KeyError "'cca530fc-4052-43b2-b130-b30968d8aa44'"), w).
Proof.
  intros Hmissing.
  unfold store_files, file_names. cbn [for_each]. unfold bind at 1.
  unfold bind at 1, files_getitem. cbn [fst snd]. rewrite Hmissing.
  reflexivity.
Qed.

End store_facts.

(** C3, on the specification's scenario.  Three questions T1, T2, T3
    are fetched and only T2 has an attachment: the download does not
    complete.  It raises [KeyError] for the first task id of the
    hardcoded table, after the four requests, and writes no file, where
    the claim has it write exactly one. *)
Theorem download_three_questions_one_attachment :
  let r := @download_questions_and_files Scenario.one_attachment Scenario.w0 in
  fst r = Raise (Exn KeyError "'cca530fc-4052-43b2-b130-b30968d8aa44'")
  ∧ fs (snd r) = fs Scenario.w0
  ∧ trace (snd r)
    = [EvGet QUESTIONS_URL; EvGet (Scenario.file_url "T1");
       EvGet (Scenario.file_url "T2"); EvGet (Scenario.file_url "T3")].
Proof. vm_compute. repeat split; reflexivity. Qed.

(** The same on the five questions of the table when the first of them
    has no attachment: [TypeError], and an empty file where the claim
    has a skipped task. *)
Example download_absent_attachment :
  let r := @download_questions_and_files
             (Scenario.mapped_attachments ["cca530fc-4052-43b2-b130-b30968d8aa44"])
             Scenario.w0 in
  fst r = Raise (Exn TypeError "a bytes-like object is required, not 'NoneType'")
  ∧ fs (snd r) = <[ "files/chess_position.jpg" := EmptyString ]> (fs Scenario.w0).
Proof. vm_compute. repeat split; reflexivity. Qed.

(** And when all five attachments are there, five files are written. *)
Example download_all_present :
  let r := @download_questions_and_files (Scenario.mapped_attachments [])
             Scenario.w0 in
  fst r = Ok (PList Scenario.mapped_questions)
  ∧ fs (snd r) !! "files/menu_items.xlsx"
    = Some ("bytes of " +:+ Scenario.file_url "7bd855d8-463d-4ed5-93ca-5fe35145f733")
  ∧ size (fs (snd r)) = 6.
Proof. vm_compute. repeat split; reflexivity. Qed.

(** *** The entry point (main.py) *)

Section trace_facts.
Context {E : Externals}.

Lemma only_gets_refl (w w' : world) : trace w' = trace w → only_gets_added w w'.
Proof. intros Hsame. exists []. by rewrite app_nil_r. Qed.

Lemma only_gets_trans (w1 w2 w3 : world) :
  only_gets_added w1 w2 → only_gets_added w2 w3 → only_gets_added w1 w3.
Proof.
  intros (evs1 & H1 & Hg1) (evs2 & H2 & Hg2). exists (evs1 ++ evs2)%list.
  split; [by rewrite H2, H1, app_assoc | by rewrite forallb_app, Hg1, Hg2].
Qed.

Lemma gets_only_ret {A} (a : A) : gets_only (ret a).
Proof. intros w. by apply only_gets_refl. Qed.

Lemma gets_only_raise {A} (e : exn) : gets_only (@raise A e).
Proof. intros w. by apply only_gets_refl. Qed.

Lemma gets_only_lift {A} (o : outcome A) : gets_only (lift o).
Proof. intros w. by apply only_gets_refl. Qed.

Lemma gets_only_print (s : string) : gets_only (print s).
Proof. intros w. by apply only_gets_refl. Qed.

Lemma gets_only_bind {A B} (m : M A) (k : A → M B) :
  gets_only m → (∀ a, gets_only (k a)) → gets_only (bind m k).
Proof.
  intros Hm Hk w. unfold bind. specialize (Hm w).
  destruct (m w) as [[a | e] w1]; simpl in *; [| exact Hm].
  eapply only_gets_trans; [exact Hm | apply Hk].
Qed.

Lemma gets_only_try_except {A} (body : M A) (handler : exn → option (M A)) :
  gets_only body →
  (∀ e h, handler e = Some h → gets_only h) →
  gets_only (try_except body handler).
Proof.
  intros Hbody Hhandler w. unfold try_except. specialize (Hbody w).
  destruct (body w) as [[a | e] w1]; simpl in *; [exact Hbody |].
  destruct (handler e) as [h |] eqn:Hh; simpl; [| exact Hbody].
  eapply only_gets_trans; [exact Hbody | by eapply Hhandler].
Qed.

Lemma gets_only_try_except_bound {A B} (first : M A) (rest : A → M B)
    (handler : option A → exn → option (M B)) :
  gets_only first →
  (∀ a, gets_only (rest a)) →
  (∀ o e h, handler o e = Some h → gets_only h) →
  gets_only (try_except_bound first rest handler).
Proof.
  intros Hfirst Hrest Hhandler w. unfold try_except_bound.
  specialize (Hfirst w). destruct (first w) as [[a | e] w1]; simpl in *.
  - eapply only_gets_trans; [exact Hfirst |].
    apply gets_only_try_except; [apply Hrest | apply Hhandler].
  - destruct (handler None e) as [h |] eqn:Hh; simpl; [| exact Hfirst].
    eapply only_gets_trans; [exact Hfirst | by eapply Hhandler].
Qed.

Lemma gets_only_for_each {A} (xs : list A) (body : A → M unit) :
  (∀ x, gets_only (body x)) → gets_only (for_each xs body).
Proof.
  intros Hbody. induction xs as [| x xs IH]; simpl.
  - apply gets_only_ret.
  - apply gets_only_bind; [apply Hbody | intros _; exact IH].
Qed.

Lemma gets_only_requests_get (url : string) (timeout : option Z) :
  gets_only (requests_get url timeout).
Proof.
  intros w. unfold requests_get. exists [EvGet url].
  destruct (requests_get_reply w url timeout); simpl; done.
Qed.

(** A payload that does not serialise is not sent. *)
Lemma gets_only_requests_post_unsent (url : string) (payload : pyval) :
  json_dumps_error payload ≠ None → gets_only (requests_post url payload).
Proof.
  intros Hser w. unfold requests_post.
  destruct (json_dumps_error payload); [by apply only_gets_refl | done].
Qed.

Lemma gets_only_raise_for_status (url : string) (r : response) :
  gets_only (raise_for_status url r).
Proof.
  unfold raise_for_status.
  repeat match goal with
    | |- context [if ?b then _ else _] => destruct b
    end; first [apply gets_only_raise | apply gets_only_ret].
Qed.

Lemma gets_only_py_len (v : pyval) : gets_only (py_len v).
Proof. destruct v; first [apply gets_only_raise | apply gets_only_ret]. Qed.

Lemma gets_only_py_iter (v : pyval) : gets_only (py_iter v).
Proof. destruct v; first [apply gets_only_raise | apply gets_only_ret]. Qed.

Lemma gets_only_py_getitem (v : pyval) (key : string) : gets_only (py_getitem v key).
Proof.
  destruct v; simpl; try apply gets_only_raise.
  destruct (dict_lookup key d); [apply gets_only_ret | apply gets_only_raise].
Qed.

Lemma gets_only_py_get (v : pyval) (key : string) (dflt : pyval) :
  gets_only (py_get v key dflt).
Proof. destruct v; first [apply gets_only_raise | apply gets_only_ret]. Qed.

Lemma gets_only_fetch_questions_except (o : option response) (e : exn) (h : M pyval) :
  fetch_questions_except o e = Some h → gets_only h.
Proof.
  unfold fetch_questions_except.
  destruct (is_RequestException e); [intros [= <-] |].
  { apply gets_only_bind; [apply gets_only_print | intros _; apply gets_only_ret]. }
  destruct (is_JSONDecodeError e); [intros [= <-] |].
  { apply gets_only_bind; [apply gets_only_print | intros _].
    destruct o; [| apply gets_only_raise].
    apply gets_only_bind; [apply gets_only_print | intros _; apply gets_only_ret]. }
  destruct (is_Exception e); [intros [= <-] | discriminate].
  apply gets_only_bind; [apply gets_only_print | intros _; apply gets_only_ret].
Qed.

Lemma gets_only_submit_answers_except (o : option response) (e : exn) (h : M pyval) :
  submit_answers_except o e = Some h → gets_only h.
Proof.
  unfold submit_answers_except.
  destruct (is_RequestException e); [intros [= <-] |].
  { apply gets_only_bind; [apply gets_only_print | intros _; apply gets_only_ret]. }
  destruct (is_JSONDecodeError e); [intros [= <-] |].
  { apply gets_only_bind; [apply gets_only_print | intros _].
    destruct o; [| apply gets_only_raise].
    apply gets_only_bind; [apply gets_only_print | intros _; apply gets_only_ret]. }
  destruct (is_Exception e); [intros [= <-] | discriminate].
  apply gets_only_bind; [apply gets_only_print | intros _; apply gets_only_ret].
Qed.

Lemma gets_only_fetch_questions (timeout : Z) : gets_only (fetch_questions timeout).
Proof.
  unfold fetch_questions.
  apply gets_only_bind; [apply gets_only_print | intros _].
  apply gets_only_try_except_bound.
  - apply gets_only_requests_get.
  - intros r. apply gets_only_bind; [apply gets_only_raise_for_status | intros _].
    apply gets_only_bind; [apply gets_only_lift | intros v].
    destruct (negb (py_truthy v)).
    + apply gets_only_bind; [apply gets_only_print | intros _; apply gets_only_ret].
    + apply gets_only_bind; [apply gets_only_py_len | intros n].
      apply gets_only_bind; [apply gets_only_print | intros _; apply gets_only_ret].
  - apply gets_only_fetch_questions_except.
Qed.

Lemma gets_only_get_file (task_id : pyval) : gets_only (get_file task_id).
Proof.
  unfold get_file. apply gets_only_try_except.
  - apply gets_only_bind; [apply gets_only_requests_get | intros r].
    apply gets_only_bind; [apply gets_only_raise_for_status | intros _].
    apply gets_only_ret.
  - intros e h. destruct (is_RequestException e); [intros [= <-] | discriminate].
    apply gets_only_ret.
Qed.

Lemma gets_only_collect_files (qs : list pyval) :
  ∀ files, gets_only (collect_files qs files).
Proof.
  induction qs as [| q qs IH]; intros files; simpl.
  - apply gets_only_ret.
  - apply gets_only_bind; [apply gets_only_py_getitem | intros task_id].
    apply gets_only_bind; [apply gets_only_get_file | intros file].
    apply gets_only_bind; [| intros files'; apply IH].
    unfold files_update.
    destruct (py_hashable task_id); [apply gets_only_ret | apply gets_only_raise].
Qed.

Lemma gets_only_write_file_wb (path : string) (data : pyval) :
  gets_only (write_file_wb path data).
Proof.
  intros w. unfold write_file_wb.
  destruct (files_dir w); [| by apply only_gets_refl].
  destruct data; by apply only_gets_refl.
Qed.

Lemma gets_only_download : gets_only download_questions_and_files.
Proof.
  unfold download_questions_and_files.
  apply gets_only_bind; [apply gets_only_fetch_questions | intros questions].
  apply gets_only_bind; [apply gets_only_py_iter | intros qs].
  apply gets_only_bind; [apply gets_only_collect_files | intros files].
  apply gets_only_bind; [| intros _; apply gets_only_ret].
  apply gets_only_for_each. intros entry.
  apply gets_only_bind; [| intros b; apply gets_only_write_file_wb].
  unfold files_getitem.
  destruct (files_lookup _ files); [apply gets_only_ret | apply gets_only_raise].
Qed.

Lemma gets_only_GAIAAgent_init (config : pyval) : gets_only (GAIAAgent_init config).
Proof.
  unfold GAIAAgent_init.
  apply gets_only_bind; [apply gets_only_py_get | intros provider].
  apply gets_only_bind; [apply gets_only_py_get | intros model].
  apply gets_only_bind; [apply gets_only_py_get | intros temperature].
  apply gets_only_bind.
  - unfold new_llm.
    destruct (py_eq_str provider "gemini"); [| destruct (py_eq_str provider "openai")];
      try apply gets_only_raise;
      destruct (llm_init_error _); first [apply gets_only_raise | apply gets_only_ret].
  - intros l. apply gets_only_bind; [| intros a; apply gets_only_ret].
    unfold new_ReActAgent.
    destruct (react_init_error _); [apply gets_only_raise | apply gets_only_ret].
Qed.

(** The payload that [main] builds never serialises, whatever the
    configured user name and code link are. *)
Lemma coroutine_payload_unserialisable (username agent_code : pyval) (fn : string) :
  json_dumps_error
    (PDict [("username", username); ("agent_code", agent_code);
            ("answers", PCoroutine fn)]) ≠ None.
Proof.
  simpl. destruct (json_dumps_error username); [done |].
  destruct (json_dumps_error agent_code); done.
Qed.

Lemma gets_only_submit_coroutine (username agent_code : pyval) (fn : string) :
  gets_only (submit_answers username agent_code (PCoroutine fn)).
Proof.
  unfold submit_answers. apply gets_only_try_except_bound.
  - apply gets_only_requests_post_unsent, coroutine_payload_unserialisable.
  - intros r. apply gets_only_bind; [apply gets_only_raise_for_status | intros _].
    apply gets_only_lift.
  - apply gets_only_submit_answers_except.
Qed.

(** In every environment and from every world, [main] makes GET requests
    only: it never invokes the agent loop and never sends a POST. *)
Lemma main_gets_only : gets_only main.
Proof.
  unfold main.
  apply gets_only_bind; [apply gets_only_download | intros questions].
  apply gets_only_bind.
  { intros w. unfold load_config.
    destruct (fs w !! "config.yaml"); by apply only_gets_refl. }
  intros config.
  apply gets_only_bind; [apply gets_only_GAIAAgent_init | intros agent].
  apply gets_only_bind; [apply gets_only_py_getitem | intros username].
  apply gets_only_bind; [apply gets_only_py_getitem | intros agent_code].
  apply gets_only_bind; [apply gets_only_submit_coroutine | intros status].
  apply gets_only_bind; [apply gets_only_print | intros _; apply gets_only_print].
Qed.

End trace_facts.

(** C1, on a run in which everything outside works: the five questions
    of the table are fetched with their attachments and the submit
    endpoint would answer with a score.  [main] downloads, builds the
    agent, and then neither runs the agent once (the trace holds the six
    GET requests and nothing else) nor submits any answer record: the
    coroutine object it passes does not serialise, no POST is sent, and
    the status it prints is [None].  The claim has it run the agent
    once per question and submit the records. *)
Theorem main_never_runs_the_agent :
  let r := @main (Scenario.mapped_attachments []) Scenario.w0 in
  fst r = Ok tt
  ∧ trace (snd r)
    = EvGet QUESTIONS_URL
        :: map (λ entry, EvGet (Scenario.file_url (fst entry))) file_names
  ∧ streams (snd r)
    = [ unlines
          [ "Fetching questions...";
            "Fetched 5 questions.";
            "An unexpected error occurred submitting answers: "
              +:+ "Object of type coroutine is not JSON serializable";
            "None";
            "Done!" ] ].
Proof. vm_compute. repeat split; reflexivity. Qed.

(** Had the coroutine been run and its result passed on, the endpoint's
    score would have come back. *)
Example submit_answers_of_the_records :
  let answers := @answer_questions (Scenario.mapped_attachments [])
                   Scenario.gemini_agent (PList Scenario.mapped_questions)
                   Scenario.w0 in
  match fst answers with
  | Ok records =>
      fst (@submit_answers (Scenario.mapped_attachments []) (PStr "user")
             (PStr "http://code.url") records (snd answers))
      = Ok Scenario.score_body
  | Raise _ => False
  end.
Proof. vm_compute. reflexivity. Qed.

(** ** Further properties *)

(** *** What [run] does to the streams and to the trace (agent.py) *)

Lemma append_assoc (a b c : string) : (a +:+ b) +:+ c = a +:+ (b +:+ c).
Proof.
  induction a as [| x a IH]; [reflexivity |].
  change (String x ((a +:+ b) +:+ c) = String x (a +:+ (b +:+ c))).
  by rewrite IH.
Qed.

Section stream_facts.
Context {E : Externals}.

(** The chunks that the loop writes end up, concatenated, at the end of
    the stream bound to [sys.stdout]; no other stream changes. *)
Lemma emit_streams (chunks : list string) (w : world) :
  streams (fold_left (λ w' s, write_stream (sys_stdout w') s w') chunks w)
  = alter (λ c, c +:+ concat_chunks chunks) (sys_stdout w) (streams w).
Proof.
  revert w. induction chunks as [| s chunks IH]; intros w; simpl.
  - symmetry. apply list_alter_id. apply append_empty_r.
  - rewrite IH. simpl. rewrite list_alter_alter_eq.
    apply list_alter_ext; [| reflexivity].
    intros c _. simpl. apply append_assoc.
Qed.


End stream_facts.

(** With capture, the reasoning text that [run] returns is exactly what
    the loop wrote during that invocation, chunk after chunk, and the
    answer is the loop's own. *)
Theorem run_capture_returns_what_was_printed `{E : Externals}
    (self : GAIAAgent) (question : pyval) (w : world) :
  fst (run self question true w)
  = match returned (react_achat (agent self) (redirected w)
                      (format general_instructions question)) with
    | Ok response =>
        Ok (response,
            concat_chunks
              (emitted (react_achat (agent self) (redirected w)
                          (format general_instructions question))))
    | Raise e => Raise e
    end.
Proof.
  rewrite run_capture_unfold. cbv zeta.
  destruct (returned _) as [response | e]; [| reflexivity].
  simpl. do 2 f_equal.
  rewrite emit_streams.
  change (sys_stdout (log_event _ (redirected w))) with (length (streams w)).
  change (streams (log_event _ (redirected w)))
    with (streams w ++ [EmptyString])%list.
  rewrite alter_app_r_alt by lia. rewrite lookup_app_r by lia.
  rewrite Nat.sub_diag. reflexivity.
Qed.

Section run_facts.
Context {E : Externals}.


(** [run] raises only what the loop raised. *)
Lemma run_raises (self : GAIAAgent) (question : pyval) (capture : bool)
    (w : world) (e : exn) :
  fst (run self question capture w) = Raise e →
  ∃ w0, returned (react_achat (agent self) w0
                    (format general_instructions question)) = Raise e.
Proof.
  destruct capture.
  - rewrite run_capture_unfold. cbv zeta.
    destruct (returned _) as [r | e'] eqn:Hret; simpl; [discriminate |].
    intros [= <-]. eauto.
  - unfold run, bind.
    pose proof (achat_result (agent self) (format general_instructions question) w)
      as Hres.
    destruct (achat (agent self) (format general_instructions question) w)
      as [[r | e'] w1]; simpl in *; [discriminate |].
    intros [= <-]. eauto.
Qed.

End run_facts.



(** *** The batch loop, run after run (main.py) *)

Section batch_effects.
Context {E : Externals}.

Lemma py_getitem_frame (v : pyval) (key : string) (w : world) :
  snd (py_getitem v key w) = w.
Proof.
  destruct v; try reflexivity. simpl. by destruct (dict_lookup key d).
Qed.

Lemma py_getitem_Raise (v : pyval) (key : string) (e : exn) (w : world) :
  fst (py_getitem v key w) = Raise e →
  ¬ ∃ d, v = PDict d ∧ is_Some (dict_lookup key d).
Proof.
  intros Hraise (d & -> & [x Hx]). simpl in Hraise. rewrite Hx in Hraise.
  discriminate Hraise.
Qed.



Lemma answer_loop_raises (self : GAIAAgent) (qs : list pyval) :
  ∀ (acc : list pyval) (w : world) (e : exn),
    fst (answer_loop self qs acc w) = Raise e →
    (∃ w0 prompt, returned (react_achat (agent self) w0 prompt) = Raise e)
    ∨ Exists (λ q, ¬ well_formed_question q) qs.
Proof.
  induction qs as [| q qs IH]; intros acc w e Hloop.
  - discriminate Hloop.
  - cbn [answer_loop] in Hloop. unfold bind in Hloop.
    destruct (py_getitem q "question" w) as [[query | e1] w1] eqn:Hq.
    + pose proof (run_raises self query true w1) as Hrun.
      destruct (run self query true w1) as [[r | e2] w2].
      * destruct (py_getitem q "task_id" w2) as [[task_id | e3] w3] eqn:Ht.
        -- apply IH in Hloop as [Hloop | Hloop]; [by left | right].
           by apply Exists_cons_tl.
        -- right. apply Exists_cons_hd. intros (d & -> & _ & Htask).
           eapply (py_getitem_Raise (PDict d) "task_id" e3 w2); [by rewrite Ht |].
           eauto.
      * simpl in Hloop. injection Hloop as <-. left.
        destruct (Hrun e2 eq_refl) as [w0 Hw0]. eauto.
    + right. apply Exists_cons_hd. intros (d & -> & Hquestion & _).
      eapply (py_getitem_Raise (PDict d) "question" e1 w); [by rewrite Hq |].
      eauto.
Qed.

End batch_effects.



(** The batch has no handler of its own: when [answer_questions]
    raises, the exception is one that the agent loop raised in some
    run, or one of the questions lacks a key that the loop reads. *)
Theorem answer_questions_raises_from_the_loop_or_a_question `{E : Externals}
    (self : GAIAAgent) (qs : list pyval) (w : world) (e : exn) :
  fst (answer_questions self (PList qs) w) = Raise e →
  (∃ w0 prompt, returned (react_achat (agent self) w0 prompt) = Raise e)
  ∨ Exists (λ q, ¬ well_formed_question q) qs.
Proof.
  intros Hrun. unfold answer_questions, bind in Hrun. simpl in Hrun.
  apply (answer_loop_raises self qs [] w e).
  destruct (answer_loop self qs [] w) as [[answers | e'] w1];
    [discriminate Hrun |].
  simpl in *. by injection Hrun as ->.
Qed.

(** The theorem on a loop that is cancelled in its first run. *)
Lemma answer_questions_raises_from_the_loop_or_a_question_witness :
  (∃ w0 prompt,
     returned (@react_achat Scenario.interrupted (agent Scenario.gemini_agent)
                 w0 prompt)
     = Raise (Exn (OtherBaseException "CancelledError") EmptyString))
  ∨ Exists (λ q, ¬ well_formed_question q) Scenario.three_questions.
Proof.
  apply (@answer_questions_raises_from_the_loop_or_a_question Scenario.interrupted
           Scenario.gemini_agent Scenario.three_questions Scenario.w0).
  vm_compute. reflexivity.
Defined.

(** *** The service client, path by path (api.py) *)

Section client_facts.
Context {E : Externals}.

(** A clause of [fetch_questions] that takes an exception returns. *)
Lemma fetch_questions_except_returns (o : option response) (e : exn)
    (h : M pyval) (w : world) :
  fetch_questions_except o e = Some h → ∃ v, fst (h w) = Ok v.
Proof.
  unfold fetch_questions_except.
  destruct (is_RequestException e) eqn:Hreq; [intros [= <-]; eexists; reflexivity |].
  destruct (is_JSONDecodeError e) eqn:Hjson.
  { apply JSONDecodeError_is_RequestException in Hjson. congruence. }
  destruct (is_Exception e); [intros [= <-]; eexists; reflexivity | discriminate].
Qed.

Lemma fetch_questions_except_passes (o : option response) (e : exn) :
  fetch_questions_except o e = None → is_Exception e = false.
Proof.
  unfold fetch_questions_except.
  destruct (is_RequestException e); [discriminate |].
  destruct (is_JSONDecodeError e); [discriminate |].
  destruct (is_Exception e); [discriminate | reflexivity].
Qed.

Lemma submit_answers_except_returns (o : option response) (e : exn)
    (h : M pyval) (w : world) :
  submit_answers_except o e = Some h → fst (h w) = Ok PNone.
Proof.
  unfold submit_answers_except.
  destruct (is_RequestException e) eqn:Hreq; [intros [= <-]; reflexivity |].
  destruct (is_JSONDecodeError e) eqn:Hjson.
  { apply JSONDecodeError_is_RequestException in Hjson. congruence. }
  destruct (is_Exception e); [intros [= <-]; reflexivity | discriminate].
Qed.

Lemma submit_answers_except_passes (o : option response) (e : exn) :
  submit_answers_except o e = None → is_Exception e = false.
Proof.
  unfold submit_answers_except.
  destruct (is_RequestException e); [discriminate |].
  destruct (is_JSONDecodeError e); [discriminate |].
  destruct (is_Exception e); [discriminate | reflexivity].
Qed.

(** A [try] whose clauses return and pass on only what is not an
    [Exception] raises only what is not an [Exception]. *)
Lemma try_except_raises {A} (body : M A) (handler : exn → option (M A))
    (w : world) (e : exn) :
  (∀ e' h w', handler e' = Some h → ∃ v, fst (h w') = Ok v) →
  (∀ e', handler e' = None → is_Exception e' = false) →
  fst (try_except body handler w) = Raise e →
  is_Exception e = false.
Proof.
  intros Hreturns Hpasses. unfold try_except.
  destruct (body w) as [[a | e'] w1]; [discriminate |].
  destruct (handler e') as [h |] eqn:Hh.
  - destruct (Hreturns e' h w1 Hh) as [v Hv]. rewrite Hv. discriminate.
  - simpl. intros [= <-]. by apply Hpasses.
Qed.

End client_facts.

(** How [steps] composes, for a reflexive and transitive relation. *)
Section steps_facts.
Context {E : Externals}.
Variable R : world → world → Prop.
Hypothesis R_refl : ∀ w, R w w.
Hypothesis R_trans : ∀ w1 w2 w3, R w1 w2 → R w2 w3 → R w1 w3.

Lemma steps_pure {A} (m : M A) : (∀ w, snd (m w) = w) → steps R m.
Proof using R_refl. intros Hm w. rewrite Hm. apply R_refl. Qed.

Lemma steps_bind {A B} (m : M A) (k : A → M B) :
  steps R m → (∀ a, steps R (k a)) → steps R (bind m k).
Proof using R_refl R_trans.
  intros Hm Hk w. unfold bind. specialize (Hm w).
  destruct (m w) as [[a | e] w1]; simpl in *; [| exact Hm].
  eapply R_trans; [exact Hm | apply Hk].
Qed.

Lemma steps_try_except {A} (body : M A) (handler : exn → option (M A)) :
  steps R body →
  (∀ e h, handler e = Some h → steps R h) →
  steps R (try_except body handler).
Proof using R_refl R_trans.
  intros Hbody Hhandler w. unfold try_except. specialize (Hbody w).
  destruct (body w) as [[a | e] w1]; simpl in *; [exact Hbody |].
  destruct (handler e) as [h |] eqn:Hh; simpl; [| exact Hbody].
  eapply R_trans; [exact Hbody | by eapply Hhandler].
Qed.

(** After the first statement of a [try], the rest and the clauses. *)
Lemma try_except_bound_after {A B} (first : M A) (rest : A → M B)
    (handler : option A → exn → option (M B)) (w : world) :
  (∀ a, steps R (rest a)) →
  (∀ o e h, handler o e = Some h → steps R h) →
  R (snd (first w)) (snd (try_except_bound first rest handler w)).
Proof using R_refl R_trans.
  intros Hrest Hhandler. unfold try_except_bound.
  destruct (first w) as [[a | e] w1]; simpl.
  - apply steps_try_except; [apply Hrest | apply Hhandler].
  - destruct (handler None e) as [h |] eqn:Hh; simpl; [| apply R_refl].
    by eapply Hhandler.
Qed.

Lemma steps_for_each {A} (xs : list A) (body : A → M unit) :
  (∀ x, steps R (body x)) → steps R (for_each xs body).
Proof using R_refl R_trans.
  intros Hbody. induction xs as [| x xs IH]; simpl.
  - by apply steps_pure.
  - apply steps_bind; [apply Hbody | intros _; exact IH].
Qed.

End steps_facts.

Section keeps_facts.
Context {E : Externals}.

Lemma keeps_refl (w : world) : keeps_trace_and_disk w w.
Proof. done. Qed.

Lemma keeps_trans (w1 w2 w3 : world) :
  keeps_trace_and_disk w1 w2 → keeps_trace_and_disk w2 w3 →
  keeps_trace_and_disk w1 w3.
Proof.
  intros (Ht & Hf & Hd) (Ht' & Hf' & Hd'). repeat split; congruence.
Qed.

Lemma keeps_print (s : string) : steps keeps_trace_and_disk (print s).
Proof. intros w. done. Qed.

Lemma keeps_raise_for_status (url : string) (r : response) :
  steps keeps_trace_and_disk (raise_for_status url r).
Proof.
  apply steps_pure; [apply keeps_refl |]. intros w.
  destruct (raise_for_status_cases url r w) as [(e & -> & _) | [-> _]]; done.
Qed.

Lemma keeps_py_len (v : pyval) : steps keeps_trace_and_disk (py_len v).
Proof. apply steps_pure; [apply keeps_refl |]. intros w. by destruct v. Qed.

Lemma keeps_print_then {A} (s : string) (m : M A) :
  steps keeps_trace_and_disk m → steps keeps_trace_and_disk (print s ;;; m).
Proof.
  intros Hm. apply steps_bind; [apply keeps_refl | apply keeps_trans | |].
  - apply keeps_print.
  - intros _. exact Hm.
Qed.

Lemma keeps_ret {A} (a : A) : steps keeps_trace_and_disk (ret a).
Proof. intros w. done. Qed.

Lemma keeps_raise {A} (e : exn) : steps keeps_trace_and_disk (@raise A e).
Proof. intros w. done. Qed.

Lemma keeps_fetch_questions_except (o : option response) (e : exn) (h : M pyval) :
  fetch_questions_except o e = Some h → steps keeps_trace_and_disk h.
Proof.
  unfold fetch_questions_except.
  destruct (is_RequestException e); [intros [= <-] |].
  { apply keeps_print_then, keeps_ret. }
  destruct (is_JSONDecodeError e); [intros [= <-] |].
  { apply keeps_print_then. destruct o; [| apply keeps_raise].
    apply keeps_print_then, keeps_ret. }
  destruct (is_Exception e); [intros [= <-] | discriminate].
  apply keeps_print_then, keeps_ret.
Qed.

Lemma keeps_submit_answers_except (o : option response) (e : exn) (h : M pyval) :
  submit_answers_except o e = Some h → steps keeps_trace_and_disk h.
Proof.
  unfold submit_answers_except.
  destruct (is_RequestException e); [intros [= <-] |].
  { apply keeps_print_then, keeps_ret. }
  destruct (is_JSONDecodeError e); [intros [= <-] |].
  { apply keeps_print_then. destruct o; [| apply keeps_raise].
    apply keeps_print_then, keeps_ret. }
  destruct (is_Exception e); [intros [= <-] | discriminate].
  apply keeps_print_then, keeps_ret.
Qed.

(** The body of the [try] of [fetch_questions] after the request. *)
Lemma keeps_fetch_questions_rest (r : response) :
  steps keeps_trace_and_disk
    (raise_for_status QUESTIONS_URL r ;;;
     questions_data <~ response_json r ;;
     if negb (py_truthy questions_data) then
       print "Fetched questions list is empty." ;;;
       ret PNone
     else
       n <~ py_len questions_data ;;
       print ("Fetched " +:+ pretty n +:+ " questions.") ;;;
       ret questions_data).
Proof.
  apply steps_bind; [apply keeps_refl | apply keeps_trans | |].
  - apply keeps_raise_for_status.
  - intros _. apply steps_bind; [apply keeps_refl | apply keeps_trans | |].
    + by apply steps_pure; [apply keeps_refl |].
    + intros v. destruct (negb (py_truthy v)).
      * apply keeps_print_then, keeps_ret.
      * apply steps_bind; [apply keeps_refl | apply keeps_trans | |].
        -- apply keeps_py_len.
        -- intros n. apply keeps_print_then, keeps_ret.
Qed.

End keeps_facts.

Section fetch_world.
Context {E : Externals}.

(** However the request ends, [fetch_questions] made one GET request
    and wrote no file. *)
Lemma fetch_questions_world (timeout : Z) (w : world) :
  trace (snd (fetch_questions timeout w)) = (trace w ++ [EvGet QUESTIONS_URL])%list
  ∧ fs (snd (fetch_questions timeout w)) = fs w
  ∧ files_dir (snd (fetch_questions timeout w)) = files_dir w.
Proof.
  pose proof (try_except_bound_after keeps_trace_and_disk keeps_refl keeps_trans
                (requests_get QUESTIONS_URL (Some timeout)) _
                fetch_questions_except
                (write_stream (sys_stdout w) ("Fetching questions..." +:+ nl) w)
                keeps_fetch_questions_rest keeps_fetch_questions_except)
    as (Ht & Hf & Hd).
  change (fetch_questions timeout w)
    with (try_except_bound (requests_get QUESTIONS_URL (Some timeout))
            (λ response,
               raise_for_status QUESTIONS_URL response ;;;
               questions_data <~ response_json response ;;
               if negb (py_truthy questions_data) then
                 print "Fetched questions list is empty." ;;;
                 ret PNone
               else
                 n <~ py_len questions_data ;;
                 print ("Fetched " +:+ pretty n +:+ " questions.") ;;;
                 ret questions_data)
            fetch_questions_except
            (write_stream (sys_stdout w) ("Fetching questions..." +:+ nl) w)).
  rewrite Ht, Hf, Hd. unfold requests_get.
  destruct (requests_get_reply _ QUESTIONS_URL (Some timeout)); done.
Qed.

(** [get_file] logs its one request and changes nothing else. *)
Lemma get_file_world (task_id : pyval) (w : world) :
  snd (get_file task_id w)
  = log_event (EvGet (FILES_URL +:+ "/" +:+ py_str task_id)) w.
Proof.
  unfold get_file, try_except, bind, requests_get.
  destruct (requests_get_reply w _ None) as [e | r].
  - by destruct (is_RequestException e).
  - destruct (raise_for_status_cases (FILES_URL +:+ "/" +:+ py_str task_id) r
                (log_event (EvGet (FILES_URL +:+ "/" +:+ py_str task_id)) w))
      as [(e & -> & Hcls & _) | [-> _]]; [| reflexivity].
    assert (Hreq : is_RequestException e = true)
      by (unfold is_RequestException; by rewrite Hcls).
    by rewrite Hreq.
Qed.

End fetch_world.

(** [fetch_questions] handles every [Exception]: if it raises at all,
    what it raises derives from [BaseException] only (a keyboard
    interrupt, say).  However the request ends, it made exactly one GET
    request, to the questions endpoint, and wrote no file. *)
Theorem fetch_questions_handles_every_Exception `{E : Externals}
    (timeout : Z) (w : world) :
  (∀ e, fst (fetch_questions timeout w) = Raise e → is_Exception e = false)
  ∧ trace (snd (fetch_questions timeout w)) = (trace w ++ [EvGet QUESTIONS_URL])%list
  ∧ fs (snd (fetch_questions timeout w)) = fs w.
Proof.
  split.
  - intros e. rewrite fetch_questions_unfold. cbv zeta.
    destruct (questions_reply w timeout) as [e' | r].
    + destruct (fetch_questions_except None e') as [h |] eqn:Hh.
      * destruct (fetch_questions_except_returns None e' h
                    (log_event (EvGet QUESTIONS_URL)
                       (snd (print "Fetching questions..." w))) Hh) as [v ->].
        discriminate.
      * simpl. intros [= <-]. by eapply fetch_questions_except_passes.
    + apply try_except_raises.
      * intros e' h w'. apply fetch_questions_except_returns.
      * intros e'. apply fetch_questions_except_passes.
  - destruct (fetch_questions_world timeout w) as (Ht & Hf & _). by split.
Qed.

(** On a reply whose body decodes to a non-empty sized value (a
    non-empty list of questions, but equally a non-empty object or
    string), [fetch_questions] returns that value as it is. *)
Theorem fetch_questions_returns_the_decoded_body `{E : Externals}
    (timeout : Z) (w : world) (v : pyval) :
  decodes_to (questions_reply w timeout) v →
  py_truthy v = true →
  ¬ has_no_len v →
  fst (fetch_questions timeout w) = Ok v.
Proof.
  intros (r & Hreply & Hstatus & Hjson) Htruthy Hlen.
  rewrite fetch_questions_unfold. cbv zeta. rewrite Hreply.
  unfold try_except, bind at 1.
  rewrite (raise_for_status_fine _ _ _ Hstatus).
  unfold bind at 1, response_json, lift. rewrite Hjson, Htruthy. simpl.
  destruct v; simpl in *; try reflexivity; try discriminate Htruthy;
    exfalso; by apply Hlen.
Qed.

(** The theorem on the questions T1, T2, T3. *)
Lemma fetch_questions_returns_the_decoded_body_witness :
  fst (@fetch_questions
         (Scenario.questions_body (Ok (PList Scenario.three_questions)))
         10 Scenario.w0)
  = Ok (PList Scenario.three_questions).
Proof.
  apply (@fetch_questions_returns_the_decoded_body
           (Scenario.questions_body (Ok (PList Scenario.three_questions)))).
  - exists (Scenario.ok_response "body" (Ok (PList Scenario.three_questions))).
    split; [vm_compute; reflexivity |]. split; [simpl; lia | reflexivity].
  - reflexivity.
  - simpl. tauto.
Defined.

(** On a transport failure, on a 4xx or 5xx status and on a body that
    is not JSON alike, [fetch_questions] returns a pair: an error
    message that starts with [Error fetching questions: ], and [None].
    It does not return [None] itself, and not a list. *)
Theorem fetch_questions_request_failure_returns_a_pair `{E : Externals}
    (timeout : Z) (w : world) :
  request_failure (questions_reply w timeout) →
  ∃ e, is_RequestException e = true
       ∧ fst (fetch_questions timeout w)
         = Ok (PTuple [PStr ("Error fetching questions: " +:+ exn_str e); PNone]).
Proof.
  intros Hfail. rewrite fetch_questions_unfold. cbv zeta.
  assert (Hclause : ∀ o e w1, is_RequestException e = true →
            ∃ h, fetch_questions_except o e = Some h
                 ∧ fst (h w1)
                   = Ok (PTuple [PStr ("Error fetching questions: " +:+ exn_str e);
                                 PNone])).
  { intros o e w1 Hreq. unfold fetch_questions_except. rewrite Hreq.
    eexists; split; reflexivity. }
  destruct Hfail as [Hfail | (r & e & Hreply & Hjson & Hreq)].
  - destruct (questions_reply w timeout) as [e | r]; simpl in Hfail.
    + exists e. split; [exact Hfail |].
      destruct (Hclause None e
                  (log_event (EvGet QUESTIONS_URL)
                     (snd (print "Fetching questions..." w))) Hfail)
        as (h & -> & Hh).
      exact Hh.
    + destruct (raise_for_status_error QUESTIONS_URL r
                  (log_event (EvGet QUESTIONS_URL)
                     (snd (print "Fetching questions..." w))) Hfail)
        as (e & Hraise & Hcls).
      assert (Hreq : is_RequestException e = true)
        by (unfold is_RequestException; by rewrite Hcls).
      exists e. split; [exact Hreq |].
      unfold try_except, bind at 1. rewrite Hraise.
      destruct (Hclause (Some r) e
                  (log_event (EvGet QUESTIONS_URL)
                     (snd (print "Fetching questions..." w))) Hreq)
        as (h & -> & Hh).
      exact Hh.
  - rewrite Hreply.
    destruct (raise_for_status_cases QUESTIONS_URL r
                (log_event (EvGet QUESTIONS_URL)
                   (snd (print "Fetching questions..." w))))
      as [(e' & Hraise & Hcls & _) | [Hfine _]].
    + assert (Hreq' : is_RequestException e' = true)
        by (unfold is_RequestException; by rewrite Hcls).
      exists e'. split; [exact Hreq' |].
      unfold try_except, bind at 1. rewrite Hraise.
      destruct (Hclause (Some r) e'
                  (log_event (EvGet QUESTIONS_URL)
                     (snd (print "Fetching questions..." w))) Hreq')
        as (h & -> & Hh).
      exact Hh.
    + exists e. split; [exact Hreq |].
      unfold try_except, bind at 1. rewrite Hfine.
      unfold bind at 1, response_json, lift. rewrite Hjson.
      destruct (Hclause (Some r) e
                  (log_event (EvGet QUESTIONS_URL)
                     (snd (print "Fetching questions..." w))) Hreq)
        as (h & -> & Hh).
      exact Hh.
Qed.

(** The theorem on a refused connection. *)
Lemma fetch_questions_request_failure_returns_a_pair_witness :
  ∃ e, is_RequestException e = true
       ∧ fst (@fetch_questions Scenario.offline 10 Scenario.w0)
         = Ok (PTuple [PStr ("Error fetching questions: " +:+ exn_str e); PNone]).
Proof.
  apply (@fetch_questions_request_failure_returns_a_pair Scenario.offline).
  left. vm_compute. reflexivity.
Defined.

(** *** The download after a failed fetch (main.py) *)

(** [download_questions_and_files] does not check what
    [fetch_questions] returned.  On [None] it raises [TypeError] when
    it starts to iterate; on the pair of the request failures it
    iterates over the pair and raises [TypeError] when it indexes the
    message with [task_id].  Either way no attachment was requested. *)
Theorem download_raises_TypeError_after_failed_fetch `{E : Externals} (w : world) :
  (fst (fetch_questions 10 w) = Ok PNone →
   download_questions_and_files w
   = (Raise (Exn TypeError "'NoneType' object is not iterable"),
      snd (fetch_questions 10 w)))
  ∧ (∀ msg, fst (fetch_questions 10 w) = Ok (PTuple [PStr msg; PNone]) →
     download_questions_and_files w
     = (Raise (Exn TypeError "string indices must be integers, not 'str'"),
        snd (fetch_questions 10 w))).
Proof.
  split.
  - intros Hfetch. unfold download_questions_and_files, bind at 1.
    destruct (fetch_questions 10 w) as [r w1]. simpl in Hfetch. subst r.
    reflexivity.
  - intros msg Hfetch. unfold download_questions_and_files, bind at 1.
    destruct (fetch_questions 10 w) as [r w1]. simpl in Hfetch. subst r.
    reflexivity.
Qed.

(** The theorem on a refused connection. *)
Lemma download_raises_TypeError_after_failed_fetch_witness :
  fst (@download_questions_and_files Scenario.offline Scenario.w0)
  = Raise (Exn TypeError "string indices must be integers, not 'str'").
Proof.
  rewrite (proj2 (@download_raises_TypeError_after_failed_fetch Scenario.offline
                    Scenario.w0)
             "Error fetching questions: Connection refused").
  - reflexivity.
  - vm_compute. reflexivity.
Defined.

(** *** Submission and attachments, path by path (api.py) *)

Section submit_paths.
Context {E : Externals}.

Lemma keeps_submit_answers_rest (r : response) :
  steps keeps_trace_and_disk
    (raise_for_status SUBMIT_URL r ;;; response_json r).
Proof.
  apply steps_bind; [apply keeps_refl | apply keeps_trans | |].
  - apply keeps_raise_for_status.
  - intros _. by apply steps_pure; [apply keeps_refl |].
Qed.

End submit_paths.

(** When the payload serialises and the endpoint answers with a status
    that is no error and a body that decodes, [submit_answers] returns
    the decoded body unchanged, after exactly one POST to the submit
    endpoint whose payload holds the three keys [username],
    [agent_code] and [answers]; it prints nothing. *)
Theorem submit_answers_returns_the_decoded_body `{E : Externals}
    (username agent_code answers v : pyval) (w : world) :
  json_dumps_error (submit_payload username agent_code answers) = None →
  decodes_to
    (requests_post_reply w SUBMIT_URL (submit_payload username agent_code answers))
    v →
  submit_answers username agent_code answers w
  = (Ok v,
     log_event (EvPost SUBMIT_URL (submit_payload username agent_code answers)) w).
Proof.
  intros Hser (r & Hreply & Hstatus & Hjson).
  unfold submit_answers, try_except_bound, requests_post.
  fold (submit_payload username agent_code answers).
  rewrite Hser, Hreply. unfold try_except, bind.
  rewrite (raise_for_status_fine _ _ _ Hstatus).
  unfold response_json, lift. by rewrite Hjson.
Qed.

(** The theorem on three answer records and an endpoint that scores. *)
Lemma submit_answers_returns_the_decoded_body_witness :
  fst (@submit_answers (Scenario.mapped_attachments []) (PStr "user")
         (PStr "http://code.url")
         (PList [PDict [("task_id", PStr "T1"); ("submitted_answer", PStr "Paris")]])
         Scenario.w0)
  = Ok Scenario.score_body.
Proof.
  rewrite (@submit_answers_returns_the_decoded_body (Scenario.mapped_attachments [])
             (PStr "user") (PStr "http://code.url")
             (PList [PDict [("task_id", PStr "T1"); ("submitted_answer", PStr "Paris")]])
             Scenario.score_body Scenario.w0).
  - reflexivity.
  - reflexivity.
  - exists (Scenario.ok_response "body" (Ok Scenario.score_body)).
    split; [reflexivity |]. split; [simpl; lia | reflexivity].
Defined.

(** [submit_answers] handles every [Exception].  What it returns is
    [None] or the decoded body of a reply whose status is no error; what
    it raises, if anything, derives from [BaseException] only.  It
    sends one POST when the payload serialises and none when it does
    not, and it writes no file. *)
Theorem submit_answers_handles_every_Exception `{E : Externals}
    (username agent_code answers : pyval) (w : world) :
  let payload := submit_payload username agent_code answers in
  let r := submit_answers username agent_code answers w in
  (∀ e, fst r = Raise e → is_Exception e = false)
  ∧ (∀ v, fst r = Ok v →
       v = PNone ∨ decodes_to (requests_post_reply w SUBMIT_URL payload) v)
  ∧ trace (snd r)
    = (match json_dumps_error payload with
       | Some _ => trace w
       | None => trace w ++ [EvPost SUBMIT_URL payload]
       end)%list
  ∧ fs (snd r) = fs w.
Proof.
  cbv zeta. split; [| split].
  - intros e. unfold submit_answers, try_except_bound.
    destruct (requests_post SUBMIT_URL _ w) as [[r | e'] w1].
    + apply try_except_raises.
      * intros e0 h w0 Hh. rewrite (submit_answers_except_returns _ _ _ w0 Hh). eauto.
      * intros e0. apply submit_answers_except_passes.
    + destruct (submit_answers_except None e') as [h |] eqn:Hh.
      * rewrite (submit_answers_except_returns _ _ _ w1 Hh). discriminate.
      * simpl. intros [= <-]. by eapply submit_answers_except_passes.
  - intros v. unfold submit_answers, try_except_bound, requests_post.
    fold (submit_payload username agent_code answers).
    destruct (json_dumps_error (submit_payload username agent_code answers))
      as [e |] eqn:Hser.
    { destruct (submit_answers_except None e) as [h |] eqn:Hh; [| discriminate].
      rewrite (submit_answers_except_returns _ _ _ w Hh). intros [= <-]. by left. }
    destruct (requests_post_reply w SUBMIT_URL _) as [e | r] eqn:Hreply.
    { destruct (submit_answers_except None e) as [h |] eqn:Hh; [| discriminate].
      rewrite (submit_answers_except_returns _ _ _ _ Hh). intros [= <-]. by left. }
    unfold try_except, bind.
    destruct (raise_for_status_cases SUBMIT_URL r
                (log_event (EvPost SUBMIT_URL
                              (submit_payload username agent_code answers)) w))
      as [(e & -> & _ & _) | [-> Hstatus]].
    { destruct (submit_answers_except (Some r) e) as [h |] eqn:Hh; [| discriminate].
      rewrite (submit_answers_except_returns _ _ _ _ Hh). intros [= <-]. by left. }
    unfold response_json, lift. destruct (json r) as [v' | e] eqn:Hjson.
    + simpl. intros [= <-]. right. exists r. done.
    + destruct (submit_answers_except (Some r) e) as [h |] eqn:Hh; [| discriminate].
      rewrite (submit_answers_except_returns _ _ _ _ Hh). intros [= <-]. by left.
  - pose proof (try_except_bound_after keeps_trace_and_disk keeps_refl keeps_trans
                  (requests_post SUBMIT_URL
                     (submit_payload username agent_code answers))
                  (λ response,
                     raise_for_status SUBMIT_URL response ;;; response_json response)
                  submit_answers_except w
                  keeps_submit_answers_rest keeps_submit_answers_except)
      as (Ht & Hf & _).
    change (submit_answers username agent_code answers w)
      with (try_except_bound
              (requests_post SUBMIT_URL (submit_payload username agent_code answers))
              (λ response,
                 raise_for_status SUBMIT_URL response ;;; response_json response)
              submit_answers_except w).
    rewrite Ht, Hf. unfold requests_post.
    destruct (json_dumps_error (submit_payload username agent_code answers));
      [done |].
    destruct (requests_post_reply w SUBMIT_URL _); done.
Qed.

(** [get_file] makes exactly one GET request, to the files endpoint
    followed by the task id, and does nothing else to the world: it
    prints nothing and touches no file.  It passes on only exceptions
    from outside the HTTP library's family. *)
Theorem get_file_makes_one_request `{E : Externals} (task_id : pyval) (w : world) :
  snd (get_file task_id w)
  = log_event (EvGet (FILES_URL +:+ "/" +:+ py_str task_id)) w
  ∧ ∀ e, fst (get_file task_id w) = Raise e → is_RequestException e = false.
Proof.
  unfold get_file, try_except, bind, requests_get.
  destruct (requests_get_reply w _ None) as [e | r].
  - destruct (is_RequestException e) eqn:Hreq; simpl.
    + split; [reflexivity | discriminate].
    + split; [reflexivity |]. intros e' Heq. by injection Heq as <-.
  - destruct (raise_for_status_cases (FILES_URL +:+ "/" +:+ py_str task_id) r
                (log_event (EvGet (FILES_URL +:+ "/" +:+ py_str task_id)) w))
      as [(e & -> & Hcls & _) | [-> _]].
    + assert (Hreq : is_RequestException e = true)
        by (unfold is_RequestException; by rewrite Hcls).
      rewrite Hreq. simpl. split; [reflexivity | discriminate].
    + simpl. split; [reflexivity | discriminate].
Qed.

(** *** Storing the attachments: what ends up on disk (main.py) *)

Section store_round_trip.
Context {E : Externals}.

Lemma stored_path_inj (e1 e2 : string * string) :
  stored_path e1 = stored_path e2 → snd e1 = snd e2.
Proof. unfold stored_path. apply String.app_inj. Qed.

(** The second loop of the download over any table without a repeated
    file name. *)
Lemma store_loop_round_trip (files : files_dict) (table : list (string * string)) :
  NoDup (map snd table) →
  ∀ w w',
    for_each table
      (λ entry,
         bytes_sequence <~ files_getitem files (fst entry) ;;
         write_file_wb ("files/" +:+ snd entry) bytes_sequence) w
    = (Ok tt, w') →
    Forall (λ entry, ∃ b, files_lookup (fst entry) files = Some (PBytes b)
                          ∧ fs w' !! stored_path entry = Some b) table
    ∧ (∀ path, path ∉ map stored_path table → fs w' !! path = fs w !! path)
    ∧ trace w' = trace w
    ∧ streams w' = streams w.
Proof.
  induction table as [| [task_id file_name] table IH]; intros Hnodup w w' Hloop.
  - injection Hloop as <-. split; [constructor | done].
  - apply NoDup_cons in Hnodup as [Hfresh Hnodup].
    cbn [for_each] in Hloop. unfold bind at 1 in Hloop.
    unfold bind at 1, files_getitem in Hloop. cbn [fst snd] in Hloop.
    destruct (files_lookup task_id files) as [v |] eqn:Hv;
      [| discriminate Hloop].
    unfold ret at 1, write_file_wb in Hloop.
    destruct (files_dir w); [| discriminate Hloop].
    destruct v; try discriminate Hloop.
    apply (IH Hnodup) in Hloop as (Hrest & Hframe & Htrace & Hstreams).
    cbn [fs set_fs trace streams] in Hframe, Htrace, Hstreams.
    assert (Hhead : stored_path (task_id, file_name) ∉ map stored_path table).
    { intros Hin. apply list_elem_of_fmap in Hin as (entry & Heq & Hentry).
      apply stored_path_inj in Heq. simpl in Heq. apply Hfresh.
      apply list_elem_of_fmap. exists entry. by split. }
    split; [| split; [| by split]].
    + constructor; [| exact Hrest].
      exists s. split; [exact Hv |].
      rewrite (Hframe _ Hhead). apply lookup_insert_eq.
    + intros path Hpath. rewrite Hframe.
      * apply lookup_insert_ne. intros <-. apply Hpath. simpl. left.
      * intros Hin. apply Hpath. simpl. by right.
Qed.

Lemma store_loop_completes (files : files_dict) (table : list (string * string)) :
  Forall (has_bytes files) table →
  ∀ w, files_dir w = true →
    ∃ w',
      for_each table
        (λ entry,
           bytes_sequence <~ files_getitem files (fst entry) ;;
           write_file_wb ("files/" +:+ snd entry) bytes_sequence) w
      = (Ok tt, w').
Proof.
  induction 1 as [| [task_id file_name] table [b Hb] _ IH]; intros w Hdir.
  - eexists. reflexivity.
  - cbn [for_each]. unfold bind at 1. unfold bind at 1, files_getitem.
    cbn [fst snd] in *. rewrite Hb. unfold ret at 1, write_file_wb. rewrite Hdir.
    apply IH. exact Hdir.
Qed.

Lemma file_names_NoDup : NoDup (map snd file_names).
Proof.
  unfold file_names. simpl.
  repeat (apply NoDup_cons; split;
          [rewrite ?elem_of_cons, ?elem_of_nil; intros H;
           repeat destruct H as [H | H]; try discriminate H; exact H |]).
  constructor.
Qed.

End store_round_trip.

(** Round trip of the materializer.  When the second loop of the
    download completes, every task id of the hardcoded table had bytes
    in the dict, and the file named for it under [files/] now holds
    exactly those bytes; every other path on disk is as it was, and
    nothing was requested or printed. *)
Theorem store_files_round_trip (files : files_dict) (w w' : world) :
  store_files files w = (Ok tt, w') →
  (∀ task_id file_name, (task_id, file_name) ∈ file_names →
     ∃ b, files_lookup task_id files = Some (PBytes b)
          ∧ fs w' !! ("files/" +:+ file_name) = Some b)
  ∧ (∀ path, path ∉ map stored_path file_names → fs w' !! path = fs w !! path)
  ∧ trace w' = trace w
  ∧ streams w' = streams w.
Proof.
  intros Hstore.
  destruct (store_loop_round_trip files file_names file_names_NoDup w w' Hstore)
    as (Hall & Hframe & Htrace & Hstreams).
  split; [| by split].
  intros task_id file_name Hin.
  rewrite Forall_forall in Hall. exact (Hall (task_id, file_name) Hin).
Qed.

(** The theorem on a dict that holds bytes for the five task ids. *)
Lemma store_files_round_trip_witness :
  let files := map (λ entry, (PStr (fst entry), PBytes ("bytes of " +:+ snd entry)))
                 file_names in
  ∃ b, files_lookup "f918266a-b3e0-4914-865d-4faa564f1aef" files = Some (PBytes b)
       ∧ fs (snd (store_files files Scenario.w0))
           !! "files/python_code.py" = Some b.
Proof.
  intros files.
  destruct (store_files files Scenario.w0) as [r w'] eqn:Hstore.
  assert (Hok : r = Ok tt) by (vm_compute in Hstore; by injection Hstore as <- _).
  subst r.
  destruct (store_files_round_trip files Scenario.w0 w' Hstore)
    as (Hall & _).
  apply (Hall "f918266a-b3e0-4914-865d-4faa564f1aef" "python_code.py").
  vm_compute. do 2 right. left.
Defined.

(** The second loop of the download completes exactly when the
    directory [files/] exists and the dict holds bytes under every task
    id of the hardcoded table.  There is no skip: one absent or
    unfetched attachment makes it raise. *)
Theorem store_files_completes_iff_all_present
    (files : files_dict) (w : world) :
  (∃ w', store_files files w = (Ok tt, w'))
  ↔ files_dir w = true ∧ Forall (has_bytes files) file_names.
Proof.
  split.
  - intros [w' Hstore]. split.
    + unfold store_files, file_names in Hstore. cbn [for_each] in Hstore.
      unfold bind at 1 in Hstore. unfold bind at 1, files_getitem in Hstore.
      destruct (files_lookup _ files); [| discriminate Hstore].
      unfold ret at 1, write_file_wb in Hstore.
      by destruct (files_dir w).
    + by eapply store_loop_needs_bytes.
  - intros [Hdir Hall]. by apply store_loop_completes.
Qed.

(** *** The download, request by request (main.py) *)

Section download_facts.
Context {E : Externals}.

Lemma py_iter_frame (v : pyval) (w : world) : snd (py_iter v w) = w.
Proof. by destruct v. Qed.

Lemma task_id_of_getitem (q x : pyval) (w w' : world) :
  py_getitem q "task_id" w = (Ok x, w') → task_id_of q = x.
Proof.
  intros Hq. apply py_getitem_Ok in Hq as (_ & d & -> & Hx). simpl. by rewrite Hx.
Qed.

(** The first loop of the download: one request per question, in
    order, and one entry of the dict per question. *)
Lemma collect_files_effects (qs : list pyval) :
  ∀ (files : files_dict) (w : world) (files' : files_dict) (w' : world),
    collect_files qs files w = (Ok files', w') →
    trace w'
    = (trace w
         ++ map (λ q, EvGet (FILES_URL +:+ "/" +:+ py_str (task_id_of q))) qs)%list
    ∧ length files' = length files + length qs
    ∧ fs w' = fs w
    ∧ files_dir w' = files_dir w
    ∧ streams w' = streams w.
Proof.
  induction qs as [| q qs IH]; intros files w files' w' Hloop.
  - injection Hloop as <- <-. simpl. rewrite app_nil_r. repeat split; lia.
  - cbn [collect_files] in Hloop. unfold bind in Hloop.
    pose proof (py_getitem_frame q "task_id" w) as Hw1.
    destruct (py_getitem q "task_id" w) as [[task_id | e] w1] eqn:Hq;
      [| discriminate Hloop].
    simpl in Hw1. subst w1.
    pose proof (task_id_of_getitem _ _ _ _ Hq) as Htid.
    pose proof (get_file_world task_id w) as Hw2.
    destruct (get_file task_id w) as [[file | e] w2]; [| discriminate Hloop].
    simpl in Hw2. subst w2.
    unfold files_update in Hloop.
    destruct (py_hashable task_id); [| discriminate Hloop].
    unfold ret at 1 in Hloop.
    apply IH in Hloop as (Ht & Hlen & Hf & Hd & Hs).
    cbn [map]. rewrite Htid, Ht, Hlen, Hf, Hd, Hs. simpl.
    rewrite length_app, <- app_assoc. simpl. repeat split; lia.
Qed.

Lemma store_files_keeps_trace (files : files_dict) :
  steps (λ w w', trace w' = trace w) (store_files files).
Proof.
  unfold store_files.
  apply steps_for_each; [done | intros; congruence |].
  intros entry. apply steps_bind; [done | intros; congruence | |].
  - apply steps_pure; [done |]. intros w. unfold files_getitem.
    by destruct (files_lookup _ files).
  - intros b w. unfold write_file_wb.
    destruct (files_dir w); [| done]. by destruct b.
Qed.

End download_facts.

(** When [download_questions_and_files] returns, it returns what
    [fetch_questions] returned, unchanged, and it made one GET request
    for the questions followed by one GET request per question, in the
    order of the questions, each to the files endpoint followed by that
    question's task id. *)
Theorem download_requests_every_attachment `{E : Externals}
    (w w' : world) (questions : pyval) :
  download_questions_and_files w = (Ok questions, w') →
  fst (fetch_questions 10 w) = Ok questions
  ∧ ∃ qs, fst (py_iter questions w) = Ok qs
          ∧ trace w'
            = (trace w ++ EvGet QUESTIONS_URL
                 :: map (λ q, EvGet (FILES_URL +:+ "/" +:+ py_str (task_id_of q)))
                      qs)%list.
Proof.
  intros Hrun. unfold download_questions_and_files, bind at 1 in Hrun.
  destruct (fetch_questions_world 10 w) as (Ht1 & _).
  destruct (fetch_questions 10 w) as [[fetched | e] w1]; [| discriminate Hrun].
  cbn [snd] in Ht1. unfold bind at 1 in Hrun.
  pose proof (py_iter_frame fetched w1) as Hw2.
  assert (Hiter : ∀ w0, fst (py_iter fetched w0) = fst (py_iter fetched w1))
    by (intros w0; by destruct fetched).
  destruct (py_iter fetched w1) as [[qs | e] w2] eqn:Hqs; [| discriminate Hrun].
  simpl in Hw2. subst w2. unfold bind at 1 in Hrun.
  destruct (collect_files qs [] w1) as [[files | e] w3] eqn:Hcollect;
    [| discriminate Hrun].
  apply collect_files_effects in Hcollect as (Ht3 & _).
  unfold bind at 1 in Hrun.
  pose proof (store_files_keeps_trace files w3) as Ht4.
  destruct (store_files files w3) as [[[] | e] w4]; [| discriminate Hrun].
  injection Hrun as <- <-. cbn [snd] in Ht4.
  split; [reflexivity |]. exists qs. split; [by rewrite Hiter |].
  rewrite Ht4, Ht3, Ht1. by rewrite <- app_assoc.
Qed.

(** The theorem on the five questions of the table. *)
Lemma download_requests_every_attachment_witness :
  fst (@fetch_questions (Scenario.mapped_attachments []) 10 Scenario.w0)
  = Ok (PList Scenario.mapped_questions).
Proof.
  destruct (@download_questions_and_files (Scenario.mapped_attachments [])
              Scenario.w0) as [r w'] eqn:Hrun.
  assert (Hok : r = Ok (PList Scenario.mapped_questions))
    by (vm_compute in Hrun; by injection Hrun as <- _).
  subst r.
  exact (proj1 (@download_requests_every_attachment (Scenario.mapped_attachments [])
                  Scenario.w0 w' _ Hrun)).
Defined.

(** *** The file reading tools: errors as text, and the hand-off from
    the download (tools.py, main.py) *)

(** The two tools never change the world and handle every [Exception]:
    what goes wrong comes back as a text that starts with [Error: ].
    In particular, when the hardcoded file is missing, the result is
    the error text with the operating system's message for that
    path. *)
Theorem file_tools_report_errors_as_text `{E : Externals} (a : string) (w : world) :
  snd (read_excel_file a w) = w
  ∧ snd (read_python_script a w) = w
  ∧ (∀ e, fst (read_excel_file a w) = Raise e → is_Exception e = false)
  ∧ (∀ e, fst (read_python_script a w) = Raise e → is_Exception e = false)
  ∧ (fs w !! "files/menu_items.xlsx" = None →
     fst (read_excel_file a w)
     = Ok ("Error: Failed to read the Excel file. Reason: "
             +:+ "[Errno 2] No such file or directory: 'files/menu_items.xlsx'"))
  ∧ (fs w !! "files/python_code.py" = None →
     fst (read_python_script a w)
     = Ok ("Error: Failed to read the Python script. Reason: "
             +:+ "[Errno 2] No such file or directory: 'files/python_code.py'")).
Proof.
  unfold read_excel_file, read_python_script, try_except, bind,
    pd_read_excel, read_text, lift, ret.
  change ("files/" +:+ "menu_items.xlsx") with "files/menu_items.xlsx".
  change ("files/" +:+ "python_code.py") with "files/python_code.py".
  destruct (fs w !! "files/menu_items.xlsx") as [xlsx |];
    destruct (fs w !! "files/python_code.py") as [py |]; simpl;
    repeat match goal with
      | |- context [pd_parse_excel ?b] => destruct (pd_parse_excel b) as [df | e1]; simpl
      | |- context [df_to_markdown ?d] => destruct (df_to_markdown d) as [md | e2]; simpl
      | |- context [decode_text ?b] => destruct (decode_text b) as [code | e3]; simpl
      | |- context [is_Exception ?e] => destruct (is_Exception e) eqn:?; simpl
      end;
    repeat split; try reflexivity; try discriminate;
    intros e' Heq; injection Heq as <-; assumption.
Qed.

(** The theorem in a world without the two files. *)
Lemma file_tools_report_errors_as_text_witness :
  fst (@read_python_script Scenario.offline "homework.py" Scenario.w0)
  = Ok ("Error: Failed to read the Python script. Reason: "
          +:+ "[Errno 2] No such file or directory: 'files/python_code.py'").
Proof.
  destruct (@file_tools_report_errors_as_text Scenario.offline "homework.py"
              Scenario.w0) as (_ & _ & _ & _ & _ & Hmissing).
  apply Hmissing. vm_compute. reflexivity.
Defined.

(** The two hardcoded tables agree.  After the second loop of the
    download has completed, [read_python_script] works on the bytes
    that were fetched for task [f918266a-...] and [read_excel_file] on
    those fetched for task [7bd855d8-...]: each returns what decoding
    those bytes gives, or the error text for the exception that the
    decoding raises. *)
Theorem tools_read_what_the_download_stored `{E : Externals}
    (files : files_dict) (w w' : world) (a : string) :
  store_files files w = (Ok tt, w') →
  (∃ b, files_lookup "f918266a-b3e0-4914-865d-4faa564f1aef" files = Some (PBytes b)
        ∧ fst (read_python_script a w')
          = match decode_text b with
            | Ok code => Ok code
            | Raise e =>
                if is_Exception e
                then Ok ("Error: Failed to read the Python script. Reason: "
                           +:+ exn_str e)
                else Raise e
            end)
  ∧ (∃ b, files_lookup "7bd855d8-463d-4ed5-93ca-5fe35145f733" files = Some (PBytes b)
          ∧ fst (read_excel_file a w')
            = match pd_parse_excel b with
              | Ok df =>
                  match df_to_markdown df with
                  | Ok table => Ok table
                  | Raise e =>
                      if is_Exception e
                      then Ok ("Error: Failed to read the Excel file. Reason: "
                                 +:+ exn_str e)
                      else Raise e
                  end
              | Raise e =>
                  if is_Exception e
                  then Ok ("Error: Failed to read the Excel file. Reason: "
                             +:+ exn_str e)
                  else Raise e
              end).
Proof.
  intros Hstore.
  destruct (store_loop_round_trip files file_names file_names_NoDup w w' Hstore)
    as (Hall & _).
  rewrite Forall_forall in Hall.
  split.
  - destruct (Hall ("f918266a-b3e0-4914-865d-4faa564f1aef", "python_code.py"))
      as (b & Hb & Hfile).
    { unfold file_names. do 2 right. left. }
    exists b. split; [exact Hb |].
    unfold read_python_script, try_except, bind, read_text, ret.
    change (stored_path ("f918266a-b3e0-4914-865d-4faa564f1aef", "python_code.py"))
      with ("files/" +:+ "python_code.py") in Hfile.
    rewrite Hfile. destruct (decode_text b) as [code | e]; [reflexivity |].
    by destruct (is_Exception e).
  - destruct (Hall ("7bd855d8-463d-4ed5-93ca-5fe35145f733", "menu_items.xlsx"))
      as (b & Hb & Hfile).
    { unfold file_names. do 4 right. left. }
    exists b. split; [exact Hb |].
    unfold read_excel_file, try_except, bind, pd_read_excel, lift.
    change (stored_path ("7bd855d8-463d-4ed5-93ca-5fe35145f733", "menu_items.xlsx"))
      with ("files/" +:+ "menu_items.xlsx") in Hfile.
    rewrite Hfile. destruct (pd_parse_excel b) as [df | e].
    + destruct (df_to_markdown df) as [table | e]; [reflexivity |].
      by destruct (is_Exception e).
    + by destruct (is_Exception e).
Qed.

(** The theorem on a dict that holds bytes for the five task ids. *)
Lemma tools_read_what_the_download_stored_witness :
  let files := map (λ entry, (PStr (fst entry), PBytes ("bytes of " +:+ snd entry)))
                 file_names in
  fst (@read_python_script Scenario.offline "whatever.py"
         (snd (store_files files Scenario.w0)))
  = Ok "bytes of python_code.py".
Proof.
  intros files.
  destruct (store_files files Scenario.w0) as [r w'] eqn:Hstore.
  assert (Hok : r = Ok tt) by (vm_compute in Hstore; by injection Hstore as <- _).
  subst r.
  destruct (@tools_read_what_the_download_stored Scenario.offline files
              Scenario.w0 w' "whatever.py" Hstore) as [(b & Hb & Hread) _].
  cbn [snd]. rewrite Hread.
  vm_compute in Hb. injection Hb as <-. reflexivity.
Defined.

(** *** [string_reverse] (tools.py) *)

Lemma list_ascii_of_string_app (a b : string) :
  list_ascii_of_string (a +:+ b)
  = (list_ascii_of_string a ++ list_ascii_of_string b)%list.
Proof.
  induction a as [| c a IH]; [reflexivity |].
  change (c :: list_ascii_of_string (a +:+ b)
          = c :: (list_ascii_of_string a ++ list_ascii_of_string b)%list).
  by rewrite IH.
Qed.

Lemma string_of_list_ascii_app (l k : list ascii) :
  string_of_list_ascii (l ++ k)
  = string_of_list_ascii l +:+ string_of_list_ascii k.
Proof.
  induction l as [| c l IH]; [reflexivity |].
  change (String c (string_of_list_ascii (l ++ k))
          = String c (string_of_list_ascii l +:+ string_of_list_ascii k)).
  by rewrite IH.
Qed.

Lemma length_list_ascii_of_string (s : string) :
  length (list_ascii_of_string s) = String.length s.
Proof. induction s as [| c s IH]; simpl; [reflexivity | by rewrite IH]. Qed.

(** Reversing twice gives the string back, reversing keeps the length,
    and the reverse of a concatenation is the reverses concatenated the
    other way round. *)
Theorem string_reverse_involutive (s t : string) :
  string_reverse (string_reverse s) = s
  ∧ String.length (string_reverse s) = String.length s
  ∧ string_reverse (s +:+ t) = string_reverse t +:+ string_reverse s.
Proof.
  unfold string_reverse. split; [| split].
  - rewrite list_ascii_of_string_of_list_ascii, rev_involutive.
    apply string_of_list_ascii_of_string.
  - rewrite <- !length_list_ascii_of_string.
    rewrite list_ascii_of_string_of_list_ascii. apply length_rev.
  - rewrite list_ascii_of_string_app, rev_app_distr.
    apply string_of_list_ascii_app.
Qed.

Example string_reverse_hello : string_reverse "hello" = "olleh".
Proof. reflexivity. Qed.

(** *** The whitespace clean-up of [web_search_and_scrape] (tools.py) *)

Lemma adjacent_spaces_cons (c : ascii) (s : string) :
  adjacent_spaces (String c s)
  = (is_space c && starts_with_space s) || adjacent_spaces s.
Proof. destruct s; simpl; [by rewrite andb_false_r | reflexivity]. Qed.

(** Inside a replaced run nothing is put out until a character that is
    no whitespace comes. *)
Lemma collapse_in_run_head (s : string) :
  starts_with_space (collapse_spaces true s) = false.
Proof.
  induction s as [| c s IH]; [reflexivity |]. simpl.
  destruct (is_space c) eqn:Hc; [exact IH | simpl; exact Hc].
Qed.

Lemma collapse_no_adjacent (s : string) :
  ∀ in_run, adjacent_spaces (collapse_spaces in_run s) = false.
Proof.
  induction s as [| c s IH]; intros in_run; [reflexivity |].
  cbn [collapse_spaces].
  destruct (is_space c) eqn:Hc.
  - destruct in_run; [apply IH |].
    destruct s as [| c' s']; [reflexivity |].
    destruct (is_space c') eqn:Hc'.
    + rewrite adjacent_spaces_cons, collapse_in_run_head, IH.
      by rewrite andb_false_r.
    + rewrite adjacent_spaces_cons, IH.
      cbn [collapse_spaces]. rewrite Hc'. simpl. rewrite Hc'.
      by rewrite andb_false_r.
  - rewrite adjacent_spaces_cons, Hc, IH. reflexivity.
Qed.

Lemma collapse_clean (s : string) :
  adjacent_spaces s = false → collapse_spaces false s = s.
Proof.
  induction s as [| c s IH]; [reflexivity |].
  rewrite adjacent_spaces_cons. intros Hclean.
  apply orb_false_iff in Hclean as [Hhead Htail].
  cbn [collapse_spaces]. destruct (is_space c) eqn:Hc.
  - destruct s as [| c' s']; [reflexivity |].
    simpl in Hhead. rewrite Hhead. by rewrite IH.
  - by rewrite IH.
Qed.

(** The clean-up leaves no two whitespace characters next to each
    other, changes nothing in a text that has none, and so does
    nothing when it is applied a second time. *)
Theorem collapse_spaces_leaves_single_spaces (s : string) :
  adjacent_spaces (collapse_spaces false s) = false
  ∧ (adjacent_spaces s = false → collapse_spaces false s = s)
  ∧ collapse_spaces false (collapse_spaces false s) = collapse_spaces false s.
Proof.
  split; [apply collapse_no_adjacent |]. split; [apply collapse_clean |].
  apply collapse_clean, collapse_no_adjacent.
Qed.

(** The theorem on a text without a run of whitespace. *)
Lemma collapse_spaces_leaves_single_spaces_witness :
  collapse_spaces false "Test Page This is the main content."
  = "Test Page This is the main content.".
Proof.
  apply (proj1 (proj2 (collapse_spaces_leaves_single_spaces
                         "Test Page This is the main content."))).
  reflexivity.
Defined.

Example collapse_spaces_runs :
  collapse_spaces false ("Extra spaces   here." +:+ nl +:+ nl +:+ " end" +:+ nl)
  = "Extra spaces here. end" +:+ nl.
Proof. reflexivity. Qed.

(** *** [web_search_and_scrape], path by path (tools.py) *)

Section web_search_facts.
Context {E : Externals} {T : ToolExternals}.

Lemma py_get_frame (v : pyval) (key : string) (dflt : pyval) (w : world) :
  snd (py_get v key dflt w) = w.
Proof. by destruct v. Qed.

(** A clause of [web_search_and_scrape] that takes an exception while
    [url] is bound returns a text. *)
Lemma web_search_except_bound (search_results : list pyval) (url : pyval)
    (e : exn) (h : M string) (w : world) :
  web_search_except search_results (Some url) e = Some h →
  ∃ message, h w = (Ok message, w) ∧ String.prefix "Error: " message = true.
Proof.
  unfold web_search_except.
  destruct (is_RequestException e); [intros [= <-]; eexists; split; reflexivity |].
  destruct (is_Exception e); [intros [= <-] | discriminate].
  eexists; split; reflexivity.
Qed.

Lemma web_search_except_passes (search_results : list pyval) (url : option pyval)
    (e : exn) :
  web_search_except search_results url e = None → is_Exception e = false.
Proof.
  unfold web_search_except.
  destruct (is_RequestException e); [discriminate |].
  destruct (is_Exception e); [discriminate | reflexivity].
Qed.

End web_search_facts.

(** When the search finds nothing, and when its first result has no
    [href] or an empty one, [web_search_and_scrape] returns the
    respective error text without any HTTP request: the world is as it
    was. *)
Theorem web_search_without_a_url `{E : Externals} `{T : ToolExternals}
    (query : string) (num_results : Z) (w : world) :
  (ddgs_text w query num_results = Ok [] →
   web_search_and_scrape query num_results w
   = (Ok "Error: Web search did not return any results.", w))
  ∧ (∀ d rest,
       ddgs_text w query num_results = Ok (PDict d :: rest) →
       py_truthy (default PNone (dict_lookup "href" d)) = false →
       web_search_and_scrape query num_results w
       = (Ok "Error: Search result did not contain a valid URL.", w)).
Proof.
  split.
  - intros Hsearch. unfold web_search_and_scrape. by rewrite Hsearch.
  - intros d rest Hsearch Hurl. unfold web_search_and_scrape.
    rewrite Hsearch. simpl. unfold ret. by rewrite Hurl.
Qed.

(** The theorem on a first result that has a title and no [href]. *)
Lemma web_search_without_a_url_witness :
  @web_search_and_scrape Scenario.offline
    (tool_externals (Ok [PDict [("title", PStr "No URL here")]]) EmptyString
       (Ok EmptyString))
    "test query" 1 Scenario.w0
  = (Ok "Error: Search result did not contain a valid URL.", Scenario.w0).
Proof.
  apply (proj2 (@web_search_without_a_url Scenario.offline
                  (tool_externals (Ok [PDict [("title", PStr "No URL here")]])
                     EmptyString (Ok EmptyString))
                  "test query" 1 Scenario.w0)
           [("title", PStr "No URL here")] []); reflexivity.
Defined.

(** When the first result carries a URL, the page is fetched with one
    GET request to that URL and a status that is no error, and the
    parser returns its text, the tool returns [Scraped content from ],
    the URL, a colon, an empty line and the cleaned text, in which no
    two whitespace characters are next to each other. *)
Theorem web_search_returns_the_cleaned_page `{E : Externals} `{T : ToolExternals}
    (query : string) (num_results : Z) (w : world)
    (d : list (string * pyval)) (rest : list pyval) (url : pyval)
    (r : response) (raw_text : string) :
  ddgs_text w query num_results = Ok (PDict d :: rest) →
  dict_lookup "href" d = Some url →
  py_truthy url = true →
  requests_get_reply w (py_str url) (Some 10%Z) = NetResponse r →
  ¬ (400 ≤ status_code r < 600)%Z →
  soup_text (text r) = Ok raw_text →
  web_search_and_scrape query num_results w
  = (Ok ("Scraped content from " +:+ py_str url +:+ ":" +:+ nl +:+ nl
           +:+ collapse_spaces false raw_text),
     log_event (EvGet (py_str url)) w)
  ∧ adjacent_spaces (collapse_spaces false raw_text) = false.
Proof.
  intros Hsearch Hhref Htruthy Hreply Hstatus Hsoup.
  split; [| apply collapse_no_adjacent].
  unfold web_search_and_scrape. rewrite Hsearch. simpl. rewrite Hhref. simpl.
  rewrite Htruthy. simpl.
  unfold try_except, bind at 1, requests_get. rewrite Hreply.
  unfold bind at 1. rewrite (raise_for_status_fine _ _ _ Hstatus).
  unfold bind at 1, lift. by rewrite Hsoup.
Qed.

(** [web_search_and_scrape] turns what goes wrong into a text that
    starts with [Error: ], with one exception.  If the search itself
    raises an exception of the HTTP library's family, the clause for
    that family formats [url], which is not bound yet, and the call
    raises [UnboundLocalError] (a [NameError]).  Everything else that
    it raises derives from [BaseException] only. *)
Theorem web_search_reports_errors_as_text `{E : Externals} `{T : ToolExternals}
    (query : string) (num_results : Z) (w : world) :
  (∀ e, ddgs_text w query num_results = Raise e →
        is_RequestException e = true →
        ∃ message,
          web_search_and_scrape query num_results w
          = (Raise (Exn NameError message), w))
  ∧ (∀ e, fst (web_search_and_scrape query num_results w) = Raise e →
          is_Exception e = false
          ∨ (exn_cls e = NameError
             ∧ ∃ e0, ddgs_text w query num_results = Raise e0
                     ∧ is_RequestException e0 = true)).
Proof.
  split.
  - intros e Hsearch Hreq. unfold web_search_and_scrape. rewrite Hsearch.
    unfold web_search_raised, web_search_except. rewrite Hreq.
    eexists. reflexivity.
  - intros e. unfold web_search_and_scrape.
    destruct (ddgs_text w query num_results) as [results | e0] eqn:Hsearch.
    + destruct results as [| top_result rest]; [discriminate |].
      pose proof (py_get_frame top_result "href" PNone w) as Hw1.
      destruct (py_get top_result "href" PNone w) as [[url | e1] w1] eqn:Hget.
      * destruct (negb (py_truthy url)); [discriminate |].
        intros Hraise. left. revert Hraise. apply try_except_raises.
        -- intros e' h w' Hh.
           destruct (web_search_except_bound _ _ _ _ w' Hh) as (m & -> & _). eauto.
        -- intros e'. apply web_search_except_passes.
      * (* [top_result.get] raises [AttributeError], which the second
           clause turns into a text *)
        destruct top_result; try discriminate Hget;
          injection Hget as <- <-; discriminate.
    + unfold web_search_raised, web_search_except.
      destruct (is_RequestException e0) eqn:Hreq.
      * intros [= <-]. right. split; [reflexivity | eauto].
      * destruct (is_Exception e0) eqn:Hexc; [discriminate |].
        intros [= <-]. by left.
Qed.

(** The theorem on a search that fails with a connection error. *)
Lemma web_search_reports_errors_as_text_witness :
  ∃ message,
    @web_search_and_scrape Scenario.offline
      (tool_externals (Raise (Exn ConnectionError "Connection refused"))
         EmptyString (Ok EmptyString))
      "test query" 1 Scenario.w0
    = (Raise (Exn NameError message), Scenario.w0).
Proof.
  apply (proj1 (@web_search_reports_errors_as_text Scenario.offline
                  (tool_externals (Raise (Exn ConnectionError "Connection refused"))
                     EmptyString (Ok EmptyString))
                  "test query" 1 Scenario.w0)
           (Exn ConnectionError "Connection refused")); reflexivity.
Defined.

Example web_search_page_unreachable :
  fst (@web_search_and_scrape Scenario.offline
         (tool_externals (Ok [PDict [("href", PStr "http://example.com/fail")]])
            EmptyString (Ok EmptyString))
         "test query" 1 Scenario.w0)
  = Ok ("Error: Failed to fetch URL http://example.com/fail. Reason: "
          +:+ "Connection refused").
Proof. vm_compute. reflexivity. Qed.

(** The theorem on a page with runs of whitespace in it. *)
Lemma web_search_returns_the_cleaned_page_witness :
  let page := "Test Page  This is the main content.   Extra spaces   here." in
  let env := Scenario.externals
               (λ _, NetResponse (Response 200 "OK" page page Scenario.not_json))
               Scenario.server_error Scenario.talkative
               (Ok Scenario.gemini_config) in
  fst (@web_search_and_scrape env
         (tool_externals (Ok [PDict [("href", PStr "http://example.com/success")]])
            EmptyString (Ok EmptyString))
         "test query" 1 Scenario.w0)
  = Ok ("Scraped content from http://example.com/success:" +:+ nl +:+ nl
          +:+ "Test Page This is the main content. Extra spaces here.").
Proof.
  intros page env.
  rewrite (proj1 (@web_search_returns_the_cleaned_page env
                    (tool_externals
                       (Ok [PDict [("href", PStr "http://example.com/success")]])
                       EmptyString (Ok EmptyString))
                    "test query" 1 Scenario.w0
                    [("href", PStr "http://example.com/success")] []
                    (PStr "http://example.com/success")
                    (Response 200 "OK" page page Scenario.not_json) page
                    eq_refl eq_refl eq_refl eq_refl ltac:(simpl; lia) eq_refl)).
  reflexivity.
Defined.

(** *** [parse_audio_file] (tools.py) *)

(** [parse_audio_file] looks for the file under the name it is given.
    When nothing exists at that path it returns the error text that
    names the path.  Otherwise it returns the transcription, or a text
    that starts with [Error: ] for whatever [Exception] the decoding
    or the speech service raised; it raises only what derives from
    [BaseException] alone, and it never changes the world. *)
Theorem parse_audio_file_reports_errors_as_text `{T : ToolExternals}
    (file_name : string) (w : world) :
  snd (parse_audio_file file_name w) = w
  ∧ (os_path_exists w ("files/" +:+ file_name) = false →
     fst (parse_audio_file file_name w)
     = Ok ("Error: File not found at " +:+ "files/" +:+ file_name))
  ∧ (∀ e, fst (parse_audio_file file_name w) = Raise e → is_Exception e = false)
  ∧ (∀ v, fst (parse_audio_file file_name w) = Ok v →
       (os_path_exists w ("files/" +:+ file_name) = true
        ∧ transcribe w ("files/" +:+ file_name) = Ok v)
       ∨ String.prefix "Error: " v = true).
Proof.
  unfold parse_audio_file.
  destruct (os_path_exists w ("files/" +:+ file_name)) eqn:Hexists; simpl.
  - unfold try_except.
    destruct (transcribe w ("files/" +:+ file_name)) as [heard | e].
    + repeat split; try discriminate. intros v [= <-]. by left.
    + unfold parse_audio_except.
      destruct (is_sr_RequestError e); simpl.
      { repeat split; try discriminate. intros v [= <-]. by right. }
      destruct (is_Exception e) eqn:Hexc; simpl.
      * destruct (py_in "ffmpeg" (py_lower (exn_str e))
                  || py_in "avlib" (py_lower (exn_str e))); simpl;
          (repeat split; try discriminate; intros v [= <-]; by right).
      * repeat split; try discriminate. by intros e' [= <-].
  - repeat split; try discriminate. intros v [= <-]. by right.
Qed.

(** The theorem on a file name under which nothing is stored. *)
Lemma parse_audio_file_reports_errors_as_text_witness :
  fst (@parse_audio_file
         (tool_externals (Ok []) "Homework.mp3" (Ok "two plus two"))
         "nonexistent.mp3" Scenario.w0)
  = Ok "Error: File not found at files/nonexistent.mp3".
Proof.
  apply (@parse_audio_file_reports_errors_as_text
           (tool_externals (Ok []) "Homework.mp3" (Ok "two plus two"))
           "nonexistent.mp3" Scenario.w0).
  reflexivity.
Defined.

Example parse_audio_file_heard :
  fst (@parse_audio_file
         (tool_externals (Ok []) "Homework.mp3" (Ok "two plus two"))
         "Homework.mp3" Scenario.w0)
  = Ok "two plus two".
Proof. reflexivity. Qed.

Example parse_audio_file_no_decoder :
  fst (@parse_audio_file
         (tool_externals (Ok []) "Homework.mp3"
            (Raise (Exn FileNotFoundError
                      "[Errno 2] No such file or directory: 'FFmpeg'")))
         "Homework.mp3" Scenario.w0)
  = Ok ("Error: Failed to process audio. Reason: "
          +:+ "[Errno 2] No such file or directory: 'FFmpeg'"
          +:+ ". Ensure ffmpeg is installed and in your system's PATH.").
Proof. vm_compute. reflexivity. Qed.

Example parse_audio_file_service_down :
  fst (@parse_audio_file
         (tool_externals (Ok []) "Homework.mp3"
            (Raise (Exn (OtherException "RequestError") "API unavailable")))
         "Homework.mp3" Scenario.w0)
  = Ok ("Error: Could not request results from Google Web Speech API; "
          +:+ "API unavailable").
Proof. vm_compute. reflexivity. Qed.

(** *** What the entry point prints (main.py) *)

Section main_facts.
Context {E : Externals}.

(** Submitting a coroutine object ends in [None], if it ends in a
    value at all. *)
Lemma submit_coroutine_None (username agent_code : pyval) (fn : string)
    (w : world) (v : pyval) :
  fst (submit_answers username agent_code (PCoroutine fn) w) = Ok v → v = PNone.
Proof.
  unfold submit_answers, try_except_bound, requests_post.
  destruct (json_dumps_error _) as [e |] eqn:Hser.
  - destruct (submit_answers_except None e) as [h |] eqn:Hh; [| discriminate].
    rewrite (submit_answers_except_returns _ _ _ w Hh). by intros [= <-].
  - by apply coroutine_payload_unserialisable in Hser.
Qed.

End main_facts.

(** Whenever [main] runs to its end, the status it printed is [None]:
    its last two lines of output are [None] and [Done!], in every
    environment, whatever the submit endpoint would have answered. *)
Theorem main_prints_None `{E : Externals} (w w' : world) :
  main w = (Ok tt, w') →
  ∃ w1, w' = snd (print "Done!" (snd (print "None" w1))).
Proof.
  intros Hmain. unfold main in Hmain.
  repeat match type of Hmain with
    | bind ?m ?k ?w0 = _ =>
        unfold bind at 1 in Hmain;
        let r := fresh "r" in let w2 := fresh "w" in let Hm := fresh "Hm" in
        destruct (m w0) as [[r | ?] w2] eqn:Hm; [| discriminate Hmain]
    end.
  match goal with
  | H : submit_answers _ _ _ _ = (Ok ?status, _) |- _ =>
      assert (status = PNone)
        by (eapply submit_coroutine_None; by rewrite H)
  end.
  subst.
  match goal with
  | H : print (py_str PNone) ?w0 = _ |- _ =>
      exists w0; change (py_str PNone) with "None" in H; rewrite H
  end.
  cbn [snd]. by rewrite Hmain.
Qed.

(** The theorem on a run in which the submit endpoint would score. *)
Lemma main_prints_None_witness :
  ∃ w1, snd (@main (Scenario.mapped_attachments []) Scenario.w0)
        = snd (print "Done!" (snd (print "None" w1))).
Proof.
  destruct (@main (Scenario.mapped_attachments []) Scenario.w0) as [r w'] eqn:Hmain.
  assert (Hok : r = Ok tt) by (vm_compute in Hmain; by injection Hmain as <- _).
  subst r.
  exact (@main_prints_None (Scenario.mapped_attachments []) Scenario.w0 w' Hmain).
Defined.

(** In every environment and from every world, the entry point makes
    GET requests only: whether it completes or raises, it has not
    invoked the agent loop and has not sent a POST. *)
Theorem main_only_downloads `{E : Externals} (w : world) :
  ∃ evs, trace (snd (main w)) = (trace w ++ evs)%list
         ∧ forallb is_get evs = true.
Proof. apply main_gets_only. Qed.
